(** * OTA update with rollback: the boot ledger, the watchdog and the orchestrator

    Shallow embedding of
      - [X509_OTA_UPDATE_ROLLBACK_ACK/OTADiagnostics.h]   (class [OTADiagnostics])
      - [PSK_OTA_UPDATE_ROLLBACK_ACK/PSK_OTA_UPDATE_ROLLBACK_ACK.ino]
        ([reportRollback], [connectPSK], [callback], [publishOTAStatus],
        [handleOTAUpdate]).

    Conventions.
      - [unsigned long] is 32 bits wide on the ESP32: timestamps are [Z] values
        in [0, 2^32) and [a - b] is computed modulo 2^32 ([sub32]).
      - [int] is 32 bits wide: [boots++] is [int_wrap (boots + 1)].
      - The NVS namespace ["ota_diag"] is a finite map from keys to typed values.
      - Every effect the firmware has on the outside world (NVS writes, MQTT
        publishes, rollback, restart) is appended to a per-boot [log].
      - [ESP.restart()] never returns: a computation either finishes ([Done])
        or ends the boot ([Reboot]).
      - [prefs.begin] opens the namespace first thing in [begin] and
        [prefs.end] closes it right before the restart in [triggerRollback];
        every operation runs between the two, so the state of the handle is
        not tracked ([prefs.end] appears in the log as [PrefsEnd]).
      - Values read from the environment are inputs: [millis()] and the link
        states are arguments, the results of [client.publish],
        [httpUpdate.update] and [deserializeJson] are fields of [Env], and
        [Update.canRollBack()] is a field of [Device].
      - [Serial] output is not modelled. *)

From Stdlib Require Import ZArith Ascii String List Bool Lia.
From stdpp Require Import base gmap strings list sorting.
Import ListNotations.

Local Open Scope string_scope.
Local Open Scope Z_scope.

(** ** Machine arithmetic *)

Definition two32 : Z := 4294967296.

(** [a - b] on [unsigned long]. *)
Definition sub32 (a b : Z) : Z := (a - b) mod two32.

(** Two's complement reading of a 32-bit pattern, for [int]. *)
Definition int_wrap (z : Z) : Z := (z + 2147483648) mod two32 - 2147483648.

(** ** Failure reasons ([enum FailureReason]) *)

Inductive FailureReason :=
| REASON_NONE
| REASON_CRASH_LOOP
| REASON_WIFI_TIMEOUT
| REASON_MQTT_TIMEOUT
| REASON_UNSTABLE
| REASON_NTP_FAILURE.

Definition reason_code (r : FailureReason) : Z :=
  match r with
  | REASON_NONE => 0
  | REASON_CRASH_LOOP => 1
  | REASON_WIFI_TIMEOUT => 2
  | REASON_MQTT_TIMEOUT => 3
  | REASON_UNSTABLE => 4
  | REASON_NTP_FAILURE => 5
  end.

(** ** The persistent boot ledger ([Preferences], namespace "ota_diag") *)

Inductive pval :=
| PInt (v : Z)
| PStr (s : string).

Module Preferences.

(** [getInt] and [getString] return the default when the key is absent or
    holds a value of another type. *)
Definition getInt (p : gmap string pval) (key : string) (defaultValue : Z) : Z :=
  match p !! key with
  | Some (PInt v) => v
  | _ => defaultValue
  end.

Definition getString (p : gmap string pval) (key : string) (defaultValue : string) : string :=
  match p !! key with
  | Some (PStr s) => s
  | _ => defaultValue
  end.

Definition putInt (p : gmap string pval) (key : string) (v : Z) : gmap string pval :=
  <[key := PInt v]> p.

Definition putString (p : gmap string pval) (key : string) (v : string) : gmap string pval :=
  <[key := PStr v]> p.

End Preferences.

#[global] Arguments Preferences.getInt : simpl never.
#[global] Arguments Preferences.getString : simpl never.
#[global] Arguments Preferences.putInt : simpl never.
#[global] Arguments Preferences.putString : simpl never.

(** ** Observable effects *)

Inductive event :=
| PutInt (key : string) (v : Z)
| PutString (key : string) (v : string)
| PrefsEnd
| Publish (topic payload : string) (ok : bool)
| HttpUpdate (url : string)
| RollBack
| Delay (ms : Z)
| Restart.

(** ** Device state

    [prefs] and [canRollBack] live in flash and survive a restart; the other
    fields are the members of the global [diag] object and the globals of the
    sketch, re-initialised at every boot. *)

Record Device := mkDevice {
  prefs : gmap string pval;
  canRollBack : bool;              (* Update.canRollBack() *)
  _bootTime : Z;
  _stabilityStartTime : Z;
  _validated : bool;
  lastReconnectAttempt : Z;
  reportSent : bool;
  log : list event
}.

Definition with_prefs (p : gmap string pval) (d : Device) : Device :=
  mkDevice p (canRollBack d) (_bootTime d) (_stabilityStartTime d) (_validated d)
           (lastReconnectAttempt d) (reportSent d) (log d).

Definition with_bootTime (t : Z) (d : Device) : Device :=
  mkDevice (prefs d) (canRollBack d) t (_stabilityStartTime d) (_validated d)
           (lastReconnectAttempt d) (reportSent d) (log d).

Definition with_stabilityStartTime (t : Z) (d : Device) : Device :=
  mkDevice (prefs d) (canRollBack d) (_bootTime d) t (_validated d)
           (lastReconnectAttempt d) (reportSent d) (log d).

Definition with_validated (b : bool) (d : Device) : Device :=
  mkDevice (prefs d) (canRollBack d) (_bootTime d) (_stabilityStartTime d) b
           (lastReconnectAttempt d) (reportSent d) (log d).

Definition with_lastReconnectAttempt (t : Z) (d : Device) : Device :=
  mkDevice (prefs d) (canRollBack d) (_bootTime d) (_stabilityStartTime d) (_validated d)
           t (reportSent d) (log d).

Definition with_reportSent (b : bool) (d : Device) : Device :=
  mkDevice (prefs d) (canRollBack d) (_bootTime d) (_stabilityStartTime d) (_validated d)
           (lastReconnectAttempt d) b (log d).

Definition with_log (l : list event) (d : Device) : Device :=
  mkDevice (prefs d) (canRollBack d) (_bootTime d) (_stabilityStartTime d) (_validated d)
           (lastReconnectAttempt d) (reportSent d) l.

(** A cold or warm start: flash is kept, RAM takes its static initialisers
    ([_stabilityStartTime = 0], [_validated = false], [reportSent = false],
    [lastReconnectAttempt = 0]). *)
Definition power_on (d : Device) : Device :=
  mkDevice (prefs d) (canRollBack d) 0 0 false 0 false [].

(** ** Computations that may restart the device *)

Inductive outcome (A : Type) :=
| Done (a : A) (d : Device)
| Reboot (d : Device).
Arguments Done {A} a d.
Arguments Reboot {A} d.

Definition M (A : Type) : Type := Device -> outcome A.

Definition ret {A} (a : A) : M A := fun d => Done a d.

Definition bind {A B} (c : M A) (k : A -> M B) : M B :=
  fun d => match c d with
           | Done a d' => k a d'
           | Reboot d' => Reboot d'
           end.

Declare Scope ota_scope.
Delimit Scope ota_scope with ota.
Notation "x <- c ;; k" := (bind c (fun x => k))
  (at level 100, c at next level, k at level 200, right associativity) : ota_scope.
Notation "c ;; k" := (bind c (fun _ => k))
  (at level 100, k at level 200, right associativity) : ota_scope.
Local Open Scope ota_scope.

Definition gets {A} (f : Device -> A) : M A := fun d => Done (f d) d.
Definition modify (f : Device -> Device) : M unit := fun d => Done tt (f d).
Definition emit (e : event) : M unit := modify (fun d => with_log (log d ++ [e]) d).

(** The device state at the end of a computation, however it ended. *)
Definition final {A} (o : outcome A) : Device :=
  match o with
  | Done _ d => d
  | Reboot d => d
  end.

Definition rebooted {A} (o : outcome A) : bool :=
  match o with
  | Done _ _ => false
  | Reboot _ => true
  end.

(** [prefs.getInt], [prefs.putInt], ... on the [prefs] member. *)
Definition prefs_getInt (key : string) (dflt : Z) : M Z :=
  gets (fun d => Preferences.getInt (prefs d) key dflt).
Definition prefs_getString (key : string) (dflt : string) : M string :=
  gets (fun d => Preferences.getString (prefs d) key dflt).
Definition prefs_putInt (key : string) (v : Z) : M unit :=
  modify (fun d => with_prefs (Preferences.putInt (prefs d) key v) d) ;;
  emit (PutInt key v).
Definition prefs_putString (key : string) (v : string) : M unit :=
  modify (fun d => with_prefs (Preferences.putString (prefs d) key v) d) ;;
  emit (PutString key v).

(** [ESP.restart()]. *)
Definition ESP_restart {A} : M A :=
  fun d => Reboot (with_log (log d ++ [Restart]) d).

(** ** OTADiagnostics *)

Module OTADiagnostics.

Definition STABILITY_DURATION : Z := 60000.
Definition TOTAL_PROBATION_LIMIT : Z := 300000.
Definition MAX_CRASH_ATTEMPTS : Z := 3.

Definition triggerRollback (reason : FailureReason) : M unit :=
  prefs_putInt "last_fail" (reason_code reason) ;;
  prefs_putInt "boot_count" 0 ;;
  emit PrefsEnd ;;
  can <- gets canRollBack ;;
  if can then
    emit RollBack ;;              (* Update.rollBack() *)
    ESP_restart
  else
    emit (Delay 2000) ;;
    ESP_restart.

Definition begin (now : Z) : M unit :=
  (* prefs.begin("ota_diag", false) opens the namespace *)
  modify (with_bootTime now) ;;
  modify (with_validated false) ;;
  modify (with_stabilityStartTime 0) ;;
  boots <- prefs_getInt "boot_count" 0 ;;
  let boots := int_wrap (boots + 1) in
  prefs_putInt "boot_count" boots ;;
  if boots >? MAX_CRASH_ATTEMPTS then
    triggerRollback REASON_CRASH_LOOP
  else ret tt.

Definition validateFirmware : M unit :=
  v <- gets _validated ;;
  if v then ret tt else
  modify (with_validated true) ;;
  prefs_putInt "boot_count" 0 ;;
  prefs_putInt "last_fail" (reason_code REASON_NONE) ;;
  prefs_putString "fail_ota_id" EmptyString.

Definition check (now : Z) (isWifiConnected isMqttConnected : bool) : M unit :=
  v <- gets _validated ;;
  if v then ret tt else
  bootTime <- gets _bootTime ;;
  if sub32 now bootTime >? TOTAL_PROBATION_LIMIT then
    if negb isWifiConnected then triggerRollback REASON_WIFI_TIMEOUT
    else if negb isMqttConnected then triggerRollback REASON_MQTT_TIMEOUT
    else triggerRollback REASON_UNSTABLE
  else
  if isWifiConnected && isMqttConnected then
    s <- gets _stabilityStartTime ;;
    (if s =? 0 then modify (with_stabilityStartTime now) else ret tt) ;;
    s <- gets _stabilityStartTime ;;
    if sub32 now s >? STABILITY_DURATION then validateFirmware else ret tt
  else
    s <- gets _stabilityStartTime ;;
    if negb (s =? 0) then modify (with_stabilityStartTime 0) else ret tt.

Definition getLastFailureReason : M Z :=
  prefs_getInt "last_fail" (reason_code REASON_NONE).

Definition getFailedOTAId : M string :=
  prefs_getString "fail_ota_id" EmptyString.

Definition clearFailure : M unit :=
  prefs_putInt "last_fail" (reason_code REASON_NONE) ;;
  prefs_putString "fail_ota_id" EmptyString.

Definition setPendingOTA (otaId : string) : M unit :=
  prefs_putString "fail_ota_id" otaId.

End OTADiagnostics.

(** ** The sketch: reporting, connection upkeep and update handling *)

(** What a call sees of the outside world: the MQTT client, the WiFi driver,
    ArduinoJson and HTTPUpdate. *)

Inductive t_httpUpdate_return :=
| HTTP_UPDATE_FAILED
| HTTP_UPDATE_NO_UPDATES
| HTTP_UPDATE_OK.

Inductive jval :=
| JString (s : string)
| JOther.

Record Env := mkEnv {
  client_connected : bool;                      (* client.connected() *)
  client_connect : bool;                        (* client.connect(name, user, pass) *)
  client_publish : string -> string -> bool;    (* client.publish(topic, payload) *)
  WiFi_connected : bool;                        (* WiFi.status() == WL_CONNECTED *)
  deserializeJson : string -> option (gmap string jval);
  httpUpdate_update : string -> t_httpUpdate_return
}.

(** [doc[key]] read as [const char*]: null unless the member is a string. *)
Definition as_cstr (doc : gmap string jval) (key : string) : option string :=
  match doc !! key with
  | Some (JString s) => Some s
  | _ => None
  end.

(** The text of a [String] seen as a C string: the bytes before the first
    NUL.  A [String] built byte by byte keeps a NUL byte in its buffer and
    counts it in its length, but the C library stops reading there. *)
Fixpoint c_str (s : string) : string :=
  match s with
  | EmptyString => EmptyString
  | String c s' =>
    if Ascii.eqb c Ascii.zero then EmptyString else String c (c_str s')
  end.

(** [String::indexOf(needle)], that is [indexOf(needle, 0)]: -1 when the
    start index 0 is not below the length, otherwise [strstr] on the two
    buffers, which yields the position of the first occurrence before the
    first NUL byte, or -1. *)
Definition indexOf (s needle : string) : Z :=
  if (String.length s =? 0)%nat then -1
  else match String.index 0 (c_str needle) (c_str s) with
       | Some n => Z.of_nat n
       | None => -1
       end.

Definition dquote : string := String "034"%char EmptyString.
Definition quoted (s : string) : string := dquote +:+ s +:+ dquote.

Definition DEVICE_NAME : string := "USERNAME".

Definition status_topic : string :=
  "protonest/" +:+ DEVICE_NAME +:+ "/ota/status/update".

(** [{"status": "failed", "reason": "<reasonStr>", "otaId": "<otaId>"}] *)
Definition failure_payload (reasonStr otaId : string) : string :=
  "{" +:+ quoted "status" +:+ ": " +:+ quoted "failed" +:+ ", " +:+
  quoted "reason" +:+ ": " +:+ quoted reasonStr +:+ ", " +:+
  quoted "otaId" +:+ ": " +:+ quoted otaId +:+ "}".

(** [{"status": "<status>", "otaId": "<otaId>"}] *)
Definition status_payload (status otaId : string) : string :=
  "{" +:+ quoted "status" +:+ ": " +:+ quoted status +:+ ", " +:+
  quoted "otaId" +:+ ": " +:+ quoted otaId +:+ "}".

Definition reasonStr_of (reasonCode : Z) : string :=
  if reasonCode =? reason_code REASON_CRASH_LOOP then "runtime_error_crash"
  else if reasonCode =? reason_code REASON_WIFI_TIMEOUT then "wifi_timeout"
  else if reasonCode =? reason_code REASON_MQTT_TIMEOUT then "mqtt_timeout"
  else if reasonCode =? reason_code REASON_UNSTABLE then "connection_unstable"
  else if reasonCode =? reason_code REASON_NTP_FAILURE then "ntp_time_sync_failed"
  else "unknown".

Definition reportRollback (env : Env) : M unit :=
  sent <- gets reportSent ;;
  if sent then ret tt else
  reasonCode <- OTADiagnostics.getLastFailureReason ;;
  if negb (reasonCode =? reason_code REASON_NONE) then
    otaId <- OTADiagnostics.getFailedOTAId ;;
    let reasonStr := reasonStr_of reasonCode in
    let topic := status_topic in
    let payload := failure_payload reasonStr otaId in
    let ok := client_publish env topic payload in
    emit (Publish topic payload ok) ;;
    if ok then
      OTADiagnostics.clearFailure ;;
      modify (with_reportSent true)
    else ret tt
  else ret tt.

(** [client.loop()] is where inbound messages reach [callback]; deliveries are
    modelled as separate calls of [callback]. *)
Definition connectPSK (env : Env) (now : Z) : M unit :=
  if client_connected env then ret tt else
  last <- gets lastReconnectAttempt ;;
  if sub32 now last >? 5000 then
    modify (with_lastReconnectAttempt now) ;;
    if WiFi_connected env then
      if client_connect env then
        (* client.subscribe(otaTopic) *)
        reportRollback env
      else ret tt
    else ret tt (* WiFi.reconnect() *)
  else ret tt.

Definition publishOTAStatus (env : Env) (status otaId : string) : M unit :=
  if negb (client_connected env) then ret tt else
  let topic := status_topic in
  let payload := status_payload status otaId in
  emit (Publish topic payload (client_publish env topic payload)).

Definition handleOTAUpdate (env : Env) (payload : string) : M unit :=
  match deserializeJson env payload with
  | None => ret tt
  | Some doc =>
    let otaUrl := as_cstr doc "otaUrl" in
    let otaId := as_cstr doc "otaId" in
    let version := as_cstr doc "otaVersion" in
    match otaUrl, otaId with
    | Some otaUrl, Some otaId =>
      OTADiagnostics.setPendingOTA otaId ;;
      emit (HttpUpdate otaUrl) ;;
      match httpUpdate_update env otaUrl with
      | HTTP_UPDATE_FAILED =>
        publishOTAStatus env "failed" otaId ;;
        OTADiagnostics.clearFailure
      | HTTP_UPDATE_NO_UPDATES =>
        publishOTAStatus env "failed" otaId ;;
        OTADiagnostics.clearFailure
      | HTTP_UPDATE_OK =>
        publishOTAStatus env "completed" otaId ;;
        emit (Delay 1000) ;;
        ESP_restart
      end
    | _, _ => ret tt
    end
  end.

Definition callback (env : Env) (message : string) : M unit :=
  if indexOf message "otaVersion" >? 0 then handleOTAUpdate env message
  else ret tt.

(** [setup()]: [wifi_ok] and [ntp_ok] are the results of [connectWifi()] and
    [SyncTime()]. *)
Definition setup (now : Z) (wifi_ok ntp_ok : bool) : M unit :=
  OTADiagnostics.begin now ;;
  (if negb wifi_ok then OTADiagnostics.triggerRollback REASON_WIFI_TIMEOUT else ret tt) ;;
  (if negb ntp_ok then OTADiagnostics.triggerRollback REASON_NTP_FAILURE else ret tt).

(** ** Runs of the control loop *)

(** One reading of the links handed to [check]. *)
Record obs := mkObs {
  o_now : Z;
  o_wifi : bool;
  o_mqtt : bool
}.

Definition check_obs (o : obs) : M unit :=
  OTADiagnostics.check (o_now o) (o_wifi o) (o_mqtt o).

(** The successive [diag.check(...)] calls of one boot. *)
Fixpoint checks (l : list obs) : M unit :=
  match l with
  | [] => ret tt
  | o :: l' => check_obs o ;; checks l'
  end.

(** Successive entries into the connect path, each with its own view of the
    network and its own clock reading. *)
Fixpoint connects (l : list (Env * Z)) : M unit :=
  match l with
  | [] => ret tt
  | (env, now) :: l' => connectPSK env now ;; connects l'
  end.

Fixpoint reports (l : list Env) : M unit :=
  match l with
  | [] => ret tt
  | env :: l' => reportRollback env ;; reports l'
  end.

(** The operations of the watchdog, as data, for statements that range over
    all of them. *)
Inductive wd_op :=
| OpBegin (now : Z)
| OpCheck (now : Z) (isWifiConnected isMqttConnected : bool)
| OpValidateFirmware
| OpTriggerRollback (reason : FailureReason)
| OpClearFailure
| OpSetPendingOTA (otaId : string).

Definition run_op (o : wd_op) : M unit :=
  match o with
  | OpBegin now => OTADiagnostics.begin now
  | OpCheck now w m => OTADiagnostics.check now w m
  | OpValidateFirmware => OTADiagnostics.validateFirmware
  | OpTriggerRollback r => OTADiagnostics.triggerRollback r
  | OpClearFailure => OTADiagnostics.clearFailure
  | OpSetPendingOTA otaId => OTADiagnostics.setPendingOTA otaId
  end.

(** The persisted boot counter, as [begin] reads it. *)
Definition boot_count (d : Device) : Z := Preferences.getInt (prefs d) "boot_count" 0.
Definition last_fail (d : Device) : Z :=
  Preferences.getInt (prefs d) "last_fail" (reason_code REASON_NONE).
Definition fail_ota_id (d : Device) : string :=
  Preferences.getString (prefs d) "fail_ota_id" EmptyString.

(** Sample ledger and device used by the examples. *)
Definition ledger0 : gmap string pval := ∅.
Definition fresh_device : Device := mkDevice ledger0 true 0 0 false 0 false [].

(** Three boots in a row that start, look at the links once and die. *)
Definition quiet_run (now : Z) (d : Device) : Device :=
  final ((OTADiagnostics.begin now ;; checks [mkObs (now + 500) true false]) (power_on d)).
Definition after_boot1 : Device := quiet_run 100 fresh_device.
Definition after_boot2 : Device := quiet_run 130 after_boot1.
Definition after_boot3 : Device := quiet_run 90 after_boot2.

(** A device on its third unvalidated boot. *)
Definition third_boot_device : Device :=
  mkDevice (Preferences.putInt ledger0 "boot_count" 2) true 1000 0 false 0 false [].

(** *** Stability windows *)

(** Time since boot at an observation, as [check] computes it. *)
Definition elapsed (boot : Z) (o : obs) : Z := sub32 (o_now o) boot.

Definition both_up (o : obs) : Prop := o_wifi o = true /\ o_mqtt o = true.

(** [oi] and [oj] delimit a stretch of consecutive [check] calls of the run
    [l], all of which saw both links up. *)
Definition up_stretch (l : list obs) (oi oj : obs) : Prop :=
  exists pre mid post,
    l = (pre ++ oi :: mid ++ oj :: post)%list /\
    both_up oi /\ Forall both_up mid /\ both_up oj.

(** The window of the specification: a stretch of length at least
    STABILITY_DURATION inside the probation period.  This definition follows
    the words of the specification, not the code. *)
Definition spec_stable_window (boot : Z) (l : list obs) : Prop :=
  exists oi oj,
    up_stretch l oi oj /\
    sub32 (o_now oj) (o_now oi) >= OTADiagnostics.STABILITY_DURATION /\
    elapsed boot oj <= OTADiagnostics.TOTAL_PROBATION_LIMIT.

(** The window [check] looks for: strictly longer than STABILITY_DURATION and
    opened by a call whose clock reading is not 0, the value that marks
    [_stabilityStartTime] as unset. *)
Definition code_stable_window (boot : Z) (l : list obs) : Prop :=
  exists oi oj,
    up_stretch l oi oj /\
    o_now oi <> 0 /\
    sub32 (o_now oj) (o_now oi) > OTADiagnostics.STABILITY_DURATION /\
    elapsed boot oj <= OTADiagnostics.TOTAL_PROBATION_LIMIT.

(** Clock readings fit an [unsigned long] and time since boot does not go
    backwards along the run. *)
Definition in_range32 (z : Z) : Prop := 0 <= z < two32.

Definition monotonic_run (boot : Z) (l : list obs) : Prop :=
  in_range32 boot /\
  Forall (fun o => in_range32 (o_now o)) l /\
  StronglySorted (fun a b => elapsed boot a <= elapsed boot b) l.

(** Successful publishes among a list of events. *)
Definition published_ok (e : event) : bool :=
  match e with
  | Publish _ _ true => true
  | _ => false
  end.

Definition count_published (l : list event) : nat :=
  length (filter (fun e => published_ok e = true) l).

(** The events of a failure report whose publish did not go through. *)
Definition failed_publish (e : event) : Prop :=
  exists topic payload, e = Publish topic payload false.

(** Two update instructions for the same image, with and without the
    "otaVersion" member, and what ArduinoJson makes of them. *)
Definition sample_url : string := "https://fw.example.org/v2.bin".

Definition msg33 : string :=
  "{" +:+ quoted "otaUrl" +:+ ":" +:+ quoted sample_url +:+ "," +:+
  quoted "otaId" +:+ ":" +:+ quoted "33" +:+ "," +:+
  quoted "otaVersion" +:+ ":" +:+ quoted "2.0" +:+ "}".

Definition msg33_bare : string :=
  "{" +:+ quoted "otaUrl" +:+ ":" +:+ quoted sample_url +:+ "," +:+
  quoted "otaId" +:+ ":" +:+ quoted "33" +:+ "}".

Definition doc33 : gmap string jval :=
  <["otaUrl" := JString sample_url]>
    (<["otaId" := JString "33"]> (<["otaVersion" := JString "2.0"]> ∅)).

Definition doc33_bare : gmap string jval :=
  <["otaUrl" := JString sample_url]> (<["otaId" := JString "33"]> ∅).

Definition sample_deserializeJson (s : string) : option (gmap string jval) :=
  if String.eqb s msg33 then Some doc33
  else if String.eqb s msg33_bare then Some doc33_bare
  else None.

(** Network views: [online] tells whether the MQTT client is connected when
    the status is published, [result] is what [httpUpdate.update] returns. *)
Definition sample_env (online : bool) (result : t_httpUpdate_return) : Env :=
  mkEnv online true (fun _ _ => true) true sample_deserializeJson (fun _ => result).

(** A freshly connected client whose publish succeeds or not. *)
Definition connect_env (publish_ok : bool) : Env :=
  mkEnv false true (fun _ _ => publish_ok) true sample_deserializeJson
        (fun _ => HTTP_UPDATE_NO_UPDATES).

(** The events of [publishOTAStatus]: one publish when the client is connected,
    none otherwise. *)
Definition status_events (env : Env) (status otaId : string) : list event :=
  if client_connected env
  then [Publish status_topic (status_payload status otaId)
          (client_publish env status_topic (status_payload status otaId))]
  else [].

(** A device that rolled back update 33 for a WiFi timeout on the previous
    boot and has just started again. *)
Definition rolled_back_device : Device :=
  mkDevice (Preferences.putString
              (Preferences.putInt ledger0 "last_fail" (reason_code REASON_WIFI_TIMEOUT))
              "fail_ota_id" "33")
           true 1000 0 false 0 false [].

(** ** The rest of the sketch *)

(** *** Start-up waits

    [connectWifi()] and [SyncTime()] poll until a condition holds or a time
    budget is spent.  One element of [polls] is one turn of the [while]: what
    the loop condition read, and what [millis()] returns if the body runs.
    [start] is the [millis()] reading taken before the loop.  [None] means
    that the loop is still running when the readings end. *)

Fixpoint connectWifi (start : Z) (polls : list (bool * Z)) : option bool :=
  match polls with
  | [] => None
  | (connected, now) :: rest =>
    if negb connected then                      (* WiFi.status() != WL_CONNECTED *)
      if sub32 now start >? 15000 then Some false
      else connectWifi start rest               (* delay(500) *)
    else Some true
  end.

Fixpoint SyncTime (start : Z) (polls : list (Z * Z)) : option bool :=
  match polls with
  | [] => None
  | (time, now) :: rest =>
    if time <? 1000000000 then                  (* time(nullptr) < 1000000000l *)
      if sub32 now start >? 20000 then Some false
      else SyncTime start rest                  (* delay(500) *)
    else Some true
  end.

(** *** The control loop

    One turn of [loop()] in which no message is delivered: [now_check] and
    [now_connect] are the [millis()] readings of [diag.check] and of
    [connectPSK].  The blinking of pin 9 is not modelled. *)
Definition loop (env : Env) (now_check now_connect : Z) : M unit :=
  OTADiagnostics.check now_check (WiFi_connected env) (client_connected env) ;;
  connectPSK env now_connect.

Fixpoint loops (l : list (Env * Z * Z)) : M unit :=
  match l with
  | [] => ret tt
  | (env, now_check, now_connect) :: l' => loop env now_check now_connect ;; loops l'
  end.

(** What [diag.check] sees in a turn of [loop()]. *)
Definition loop_obs (turn : Env * Z * Z) : obs :=
  mkObs (snd (fst turn)) (WiFi_connected (fst (fst turn))) (client_connected (fst (fst turn))).

(** Boots in a row, each running [setup()] to its end; an element gives the
    clock reading of [begin] and the results of the two start-up waits. *)
Fixpoint setups (l : list (Z * bool * bool)) (d : Device) : Device :=
  match l with
  | [] => d
  | (now, wifi_ok, ntp_ok) :: l' => setups l' (final (setup now wifi_ok ntp_ok (power_on d)))
  end.

(** *** Command dispatch of the subscribe sketch

    The second sketch of the file routes inbound messages to two actuators.
    [pins] maps a GPIO number to its output level ([true] is HIGH). *)
Module Commands.

Definition LED_PIN : Z := 2.
Definition PUMP_PIN : Z := 3.

Definition digitalWrite (pin : Z) (level : bool) (pins : gmap Z bool) : gmap Z bool :=
  <[pin := level]> pins.

Definition handleLedControl (command : string) (pins : gmap Z bool) : gmap Z bool :=
  if indexOf command "ON" >? 0 then digitalWrite LED_PIN true pins
  else if indexOf command "OFF" >? 0 then digitalWrite LED_PIN false pins
  else pins.

Definition handlePumpControl (command : string) (pins : gmap Z bool) : gmap Z bool :=
  if indexOf command "ON" >? 0 then digitalWrite PUMP_PIN true pins
  else digitalWrite PUMP_PIN false pins.

Definition callback (message : string) (pins : gmap Z bool) : gmap Z bool :=
  if indexOf message "led" >? 0 then handleLedControl message pins
  else if indexOf message "pump" >? 0 then handlePumpControl message pins
  else pins.

End Commands.

(** Sample inputs for the start-up waits and the dispatcher. *)
Definition no_wifi_polls : list (bool * Z) :=
  map (fun k => (false, 100 + 500 * Z.of_nat k)) (seq 0 32).

(** Turns of [loop()] in which WiFi is up but the broker never accepts the
    connection; the last one comes after the probation deadline. *)
Definition offline_env : Env :=
  mkEnv false false (fun _ _ => true) true sample_deserializeJson (fun _ => HTTP_UPDATE_OK).

Definition flapping_turns : list (Env * Z * Z) :=
  [(offline_env, 6000, 6001); (offline_env, 120000, 120001);
   (offline_env, 310000, 310001)].

Definition sample_turns : list (Env * Z * Z) :=
  [(sample_env true HTTP_UPDATE_OK, 5000, 5001);
   (sample_env true HTTP_UPDATE_OK, 40000, 40001);
   (sample_env true HTTP_UPDATE_OK, 65001, 65002)].

(** * Properties *)

(** ** The ledger *)

Section Ledger.
Import Preferences.
Context (p : gmap string pval).

Lemma getInt_putInt_eq k v dflt : getInt (putInt p k v) k dflt = v.
Proof. unfold getInt, putInt. by rewrite lookup_insert_eq. Qed.

Lemma getInt_putInt_ne k k' v dflt :
  k ≠ k' -> getInt (putInt p k v) k' dflt = getInt p k' dflt.
Proof. intros. unfold getInt, putInt. by rewrite lookup_insert_ne. Qed.

Lemma getInt_putString_ne k k' v dflt :
  k ≠ k' -> getInt (putString p k v) k' dflt = getInt p k' dflt.
Proof. intros. unfold getInt, putString. by rewrite lookup_insert_ne. Qed.

Lemma getString_putString_eq k v dflt : getString (putString p k v) k dflt = v.
Proof. unfold getString, putString. by rewrite lookup_insert_eq. Qed.

Lemma getString_putString_ne k k' v dflt :
  k ≠ k' -> getString (putString p k v) k' dflt = getString p k' dflt.
Proof. intros. unfold getString, putString. by rewrite lookup_insert_ne. Qed.

Lemma getString_putInt_ne k k' v dflt :
  k ≠ k' -> getString (putInt p k v) k' dflt = getString p k' dflt.
Proof. intros. unfold getString, putInt. by rewrite lookup_insert_ne. Qed.
End Ledger.

Create Rewrite HintDb ledger.
#[local] Hint Rewrite getInt_putInt_eq getString_putString_eq : ledger.
#[local] Hint Rewrite getInt_putInt_ne getInt_putString_ne getString_putString_ne
  getString_putInt_ne using discriminate : ledger.

(** Unfolds the monadic plumbing, leaving the record operations. *)
Ltac run :=
  unfold bind, ret, gets, modify, emit, prefs_putInt, prefs_putString,
    prefs_getInt, prefs_getString, ESP_restart, bind, ret, gets, modify; cbn.

(** ** Sanity checks of the embedding on concrete inputs *)

Example indexOf_found :
  indexOf ("{" +:+ quoted "otaVersion" +:+ ": 1}") "otaVersion" = 2.
Proof. reflexivity. Qed.

Example indexOf_at_zero : indexOf "otaVersion=1" "otaVersion" = 0.
Proof. reflexivity. Qed.

Example indexOf_missing : indexOf "{}" "otaVersion" = -1.
Proof. reflexivity. Qed.

(** [indexOf] does not see past a NUL byte. *)
Lemma c_str_stops_at_NUL s t : c_str (s +:+ String Ascii.zero t) = c_str s.
Proof.
  induction s as [|c s IH]; [done|].
  change (String c s +:+ String Ascii.zero t) with (String c (s +:+ String Ascii.zero t)).
  cbn [c_str]. by rewrite IH.
Qed.

Lemma indexOf_stops_at_NUL s t needle :
  s <> EmptyString ->
  indexOf (s +:+ String Ascii.zero t) needle = indexOf s needle.
Proof.
  intros Hs. unfold indexOf. rewrite c_str_stops_at_NUL.
  destruct s as [|c s]; [done|]. reflexivity.
Qed.

Example indexOf_keyword_after_NUL :
  indexOf (msg33_bare +:+ String Ascii.zero "otaVersion") "otaVersion" = -1.
Proof. vm_compute. reflexivity. Qed.

Example callback_keyword_after_NUL :
  callback (sample_env true HTTP_UPDATE_OK)
           (msg33_bare +:+ String Ascii.zero "otaVersion") fresh_device
    = Done tt fresh_device.
Proof. vm_compute. reflexivity. Qed.

Example pump_command_with_led_after_NUL :
  Commands.callback ("{pump:ON" +:+ String Ascii.zero "led}") ∅ !! Commands.PUMP_PIN
    = Some true.
Proof. vm_compute. reflexivity. Qed.

Example begin_first_boot :
  Preferences.getInt (prefs (final (OTADiagnostics.begin 120 fresh_device))) "boot_count" 0 = 1.
Proof. vm_compute. reflexivity. Qed.

(** ** The watchdog *)

Section Watchdog.
Import OTADiagnostics.

(** [triggerRollback] always ends the boot; these are its effects. *)
Lemma triggerRollback_reboots reason d :
  exists d',
    triggerRollback reason d = Reboot d' /\
    prefs d' = Preferences.putInt
                 (Preferences.putInt (prefs d) "last_fail" (reason_code reason))
                 "boot_count" 0 /\
    log d' = (log d ++ [PutInt "last_fail" (reason_code reason); PutInt "boot_count" 0;
                       PrefsEnd; if canRollBack d then RollBack else Delay 2000;
                       Restart])%list /\
    _validated d' = _validated d.
Proof.
  unfold triggerRollback. run. destruct (canRollBack d) eqn:E; run;
    (eexists; split; [reflexivity|]); cbn; rewrite <- ?app_assoc; cbn; auto.
Qed.

Lemma with_stabilityStartTime_id d :
  with_stabilityStartTime (_stabilityStartTime d) d = d.
Proof. by destruct d. Qed.

(** The three regimes of [check]. *)
Lemma check_validated now w m d :
  _validated d = true -> check now w m d = Done tt d.
Proof. intros H. unfold check. run. by rewrite H. Qed.

Lemma check_timeout now w m d :
  _validated d = false ->
  sub32 now (_bootTime d) > TOTAL_PROBATION_LIMIT ->
  check now w m d =
    triggerRollback (if negb w then REASON_WIFI_TIMEOUT
                     else if negb m then REASON_MQTT_TIMEOUT
                     else REASON_UNSTABLE) d.
Proof.
  intros Hv Ht. unfold check. run. rewrite Hv.
  destruct (Z.gtb_spec (sub32 now (_bootTime d)) TOTAL_PROBATION_LIMIT); [|lia].
  by destruct w, m.
Qed.

Lemma check_link_down now w m d :
  _validated d = false ->
  sub32 now (_bootTime d) <= TOTAL_PROBATION_LIMIT ->
  w && m = false ->
  check now w m d = Done tt (with_stabilityStartTime 0 d).
Proof.
  intros Hv Ht Hl. unfold check. run. rewrite Hv, Hl.
  destruct (Z.gtb_spec (sub32 now (_bootTime d)) TOTAL_PROBATION_LIMIT); [lia|].
  destruct (Z.eqb_spec (_stabilityStartTime d) 0) as [E|E]; cbn; [|done].
  by rewrite <- E, with_stabilityStartTime_id.
Qed.

Lemma check_link_up now d :
  _validated d = false ->
  sub32 now (_bootTime d) <= TOTAL_PROBATION_LIMIT ->
  let s := if _stabilityStartTime d =? 0 then now else _stabilityStartTime d in
  check now true true d =
    (if sub32 now s >? STABILITY_DURATION then validateFirmware else ret tt)
      (with_stabilityStartTime s d).
Proof.
  intros Hv Ht. unfold check. run. rewrite Hv.
  destruct (Z.gtb_spec (sub32 now (_bootTime d)) TOTAL_PROBATION_LIMIT); [lia|].
  destruct (Z.eqb_spec (_stabilityStartTime d) 0) as [E|E]; cbn; [done|].
  by rewrite with_stabilityStartTime_id.
Qed.

(** [validateFirmware] on an image that is still on probation. *)
Lemma validateFirmware_fresh d :
  _validated d = false ->
  exists d',
    validateFirmware d = Done tt d' /\
    _validated d' = true /\
    prefs d' = Preferences.putString
                 (Preferences.putInt (Preferences.putInt (prefs d) "boot_count" 0)
                    "last_fail" (reason_code REASON_NONE))
                 "fail_ota_id" EmptyString /\
    log d' = (log d ++ [PutInt "boot_count" 0; PutInt "last_fail" 0;
                        PutString "fail_ota_id" EmptyString])%list /\
    canRollBack d' = canRollBack d /\ _bootTime d' = _bootTime d /\
    _stabilityStartTime d' = _stabilityStartTime d.
Proof.
  intros Hv. unfold validateFirmware. run. rewrite Hv. cbn.
  eexists; split; [reflexivity|]. cbn. rewrite <- !app_assoc. auto 10.
Qed.

Lemma validateFirmware_again d :
  _validated d = true -> validateFirmware d = Done tt d.
Proof. intros Hv. unfold validateFirmware. run. by rewrite Hv. Qed.

Lemma checks_validated l d :
  _validated d = true -> checks l d = Done tt d.
Proof.
  induction l as [|o l IH]; intros Hv; [done|].
  cbn. unfold bind, check_obs. rewrite check_validated by done. by apply IH.
Qed.

(** A run of [check]s that neither validates nor rolls back leaves the
    ledger alone. *)
Lemma check_unvalidated_frame now w m d d' :
  check now w m d = Done tt d' -> _validated d' = false ->
  prefs d' = prefs d /\ canRollBack d' = canRollBack d /\ _validated d = false /\
  log d' = log d /\ _bootTime d' = _bootTime d.
Proof.
  intros Hc Hv'.
  destruct (_validated d) eqn:Hv.
  { rewrite check_validated in Hc by done. congruence. }
  destruct (Z_le_gt_dec (sub32 now (_bootTime d)) TOTAL_PROBATION_LIMIT) as [Ht|Ht].
  2:{ rewrite check_timeout in Hc by done.
      destruct (triggerRollback_reboots
                  (if negb w then REASON_WIFI_TIMEOUT
                   else if negb m then REASON_MQTT_TIMEOUT else REASON_UNSTABLE) d)
        as (d2 & E & _). congruence. }
  destruct (w && m) eqn:Hl.
  - apply andb_true_iff in Hl as [-> ->].
    rewrite check_link_up in Hc by done.
    destruct (_ >? _).
    + destruct (validateFirmware_fresh (with_stabilityStartTime
                  (if _stabilityStartTime d =? 0 then now else _stabilityStartTime d) d))
        as (d2 & E & Hv2 & _); [done|]. congruence.
    + inversion Hc; subst. by cbn.
  - rewrite check_link_down in Hc by done. inversion Hc; subst. by cbn.
Qed.

Lemma checks_unvalidated_frame l d d' :
  checks l d = Done tt d' -> _validated d' = false ->
  prefs d' = prefs d /\ canRollBack d' = canRollBack d /\ log d' = log d.
Proof.
  revert d. induction l as [|o l IH]; intros d Hc Hv'.
  { inversion Hc; subst. done. }
  cbn in Hc. unfold bind, check_obs in Hc.
  destruct (check (o_now o) (o_wifi o) (o_mqtt o) d) as [[] d1|d1] eqn:E; [|done].
  destruct (_validated d1) eqn:Hv1.
  { rewrite checks_validated in Hc by done. congruence. }
  destruct (IH _ Hc Hv') as (-> & -> & ->).
  destruct (check_unvalidated_frame _ _ _ _ _ E Hv1) as (? & ? & ? & ? & ?). done.
Qed.

(** [begin] below and above the crash threshold. *)
Lemma begin_counts now d :
  let boots := int_wrap (Preferences.getInt (prefs d) "boot_count" 0 + 1) in
  boots <= MAX_CRASH_ATTEMPTS ->
  exists d',
    begin now d = Done tt d' /\
    prefs d' = Preferences.putInt (prefs d) "boot_count" boots /\
    log d' = (log d ++ [PutInt "boot_count" boots])%list /\
    _bootTime d' = now /\ _stabilityStartTime d' = 0 /\ _validated d' = false /\
    canRollBack d' = canRollBack d.
Proof.
  intros boots Hb. unfold begin. run. fold boots.
  destruct (Z.gtb_spec boots MAX_CRASH_ATTEMPTS); [lia|].
  eexists; split; [reflexivity|]. cbn. auto 10.
Qed.

Lemma begin_crash_loop now d :
  let boots := int_wrap (Preferences.getInt (prefs d) "boot_count" 0 + 1) in
  boots > MAX_CRASH_ATTEMPTS ->
  exists d',
    begin now d = Reboot d' /\
    prefs d' = Preferences.putInt
                 (Preferences.putInt (Preferences.putInt (prefs d) "boot_count" boots)
                    "last_fail" (reason_code REASON_CRASH_LOOP))
                 "boot_count" 0 /\
    log d' = (log d ++ [PutInt "boot_count" boots;
                        PutInt "last_fail" (reason_code REASON_CRASH_LOOP);
                        PutInt "boot_count" 0; PrefsEnd;
                        if canRollBack d then RollBack else Delay 2000;
                        Restart])%list.
Proof.
  intros boots Hb. unfold begin. run. fold boots.
  destruct (Z.gtb_spec boots MAX_CRASH_ATTEMPTS); [|lia].
  match goal with |- context [triggerRollback ?r ?x] =>
    destruct (triggerRollback_reboots r x) as (d' & E & Hp & Hl & _) end.
  exists d'. rewrite E. split; [done|]. rewrite Hp, Hl. cbn.
  rewrite <- app_assoc. done.
Qed.

Lemma int_wrap_small z : -2147483648 <= z < 2147483648 -> int_wrap z = z.
Proof.
  intros H. unfold int_wrap, two32. rewrite Z.mod_small; lia.
Qed.

(** A boot that runs [begin] and some [check]s and then dies without having
    validated or rolled back adds one to the counter. *)
Lemma quiet_boot now l d d' :
  0 <= boot_count d < MAX_CRASH_ATTEMPTS ->
  (begin now ;; checks l) (power_on d) = Done tt d' ->
  _validated d' = false ->
  boot_count d' = boot_count d + 1 /\ canRollBack d' = canRollBack d.
Proof.
  unfold boot_count, MAX_CRASH_ATTEMPTS. intros Hn Hrun Hv.
  unfold bind in Hrun.
  destruct (begin_counts now (power_on d)) as (dB & EB & Hp & _ & _ & _ & _ & Hc).
  { cbn. rewrite int_wrap_small; unfold MAX_CRASH_ATTEMPTS; lia. }
  rewrite EB in Hrun.
  destruct (checks_unvalidated_frame _ _ _ Hrun Hv) as (-> & -> & _).
  rewrite Hp, Hc. cbn. autorewrite with ledger.
  split; [apply int_wrap_small; lia | done].
Qed.

(** C3. When [check] runs on an image that is not validated and more than
    TOTAL_PROBATION_LIMIT has elapsed since boot, it rolls back, and the
    persisted reason follows a fixed priority: WiFi down gives
    REASON_WIFI_TIMEOUT whatever the MQTT state, otherwise MQTT down gives
    REASON_MQTT_TIMEOUT, otherwise REASON_UNSTABLE. *)
Theorem check_timeout_reason_priority now w m d :
  _validated d = false ->
  sub32 now (_bootTime d) > TOTAL_PROBATION_LIMIT ->
  let reason := match w, m with
                | false, _ => REASON_WIFI_TIMEOUT
                | true, false => REASON_MQTT_TIMEOUT
                | true, true => REASON_UNSTABLE
                end in
  exists d',
    check now w m d = Reboot d' /\
    check now w m d = triggerRollback reason d /\
    last_fail d' = reason_code reason /\
    (log d' = log d ++ [PutInt "last_fail" (reason_code reason); PutInt "boot_count" 0;
                        PrefsEnd; if canRollBack d then RollBack else Delay 2000;
                        Restart])%list.
Proof.
  intros Hv Ht reason.
  assert (Hc : check now w m d = triggerRollback reason d).
  { rewrite check_timeout by done. by destruct w, m. }
  destruct (triggerRollback_reboots reason d) as (d' & E & Hp & Hl & _).
  exists d'. rewrite Hc. repeat split; try done.
  unfold last_fail. rewrite Hp. by autorewrite with ledger.
Qed.

Lemma check_timeout_reason_priority_witness :
  exists d',
    check 400000 false true (with_bootTime 1000 fresh_device) = Reboot d' /\
    last_fail d' = reason_code REASON_WIFI_TIMEOUT.
Proof.
  destruct (check_timeout_reason_priority 400000 false true
              (with_bootTime 1000 fresh_device)) as (d' & E & _ & Hf & _).
  - reflexivity.
  - vm_compute. reflexivity.
  - exists d'. split; [exact E | exact Hf].
Defined.

(** C2. With MAX_CRASH_ATTEMPTS = 3, starting from a ledger whose counter is
    0, three boots that run [begin] (and any [check]s) without validating or
    rolling back bring the counter to 3; [begin] on the fourth boot persists
    4, finds it above the threshold and calls
    [triggerRollback(REASON_CRASH_LOOP)] itself: the boot ends inside
    [begin], so no [check] of that boot runs. *)
Theorem crash_loop_on_fourth_boot d0 d1 d2 d3 t1 t2 t3 t4 l1 l2 l3 :
  boot_count d0 = 0 ->
  (begin t1 ;; checks l1) (power_on d0) = Done tt d1 -> _validated d1 = false ->
  (begin t2 ;; checks l2) (power_on d1) = Done tt d2 -> _validated d2 = false ->
  (begin t3 ;; checks l3) (power_on d2) = Done tt d3 -> _validated d3 = false ->
  exists d4,
    begin t4 (power_on d3) = Reboot d4 /\
    log d4 = [PutInt "boot_count" 4;
              PutInt "last_fail" (reason_code REASON_CRASH_LOOP);
              PutInt "boot_count" 0; PrefsEnd;
              if canRollBack d0 then RollBack else Delay 2000;
              Restart] /\
    last_fail d4 = reason_code REASON_CRASH_LOOP /\
    (forall l4, (begin t4 ;; checks l4) (power_on d3) = Reboot d4).
Proof.
  intros H0 R1 V1 R2 V2 R3 V3.
  destruct (quiet_boot t1 l1 d0 d1) as [B1 C1];
    [unfold MAX_CRASH_ATTEMPTS; lia | done | done |].
  destruct (quiet_boot t2 l2 d1 d2) as [B2 C2];
    [unfold MAX_CRASH_ATTEMPTS; lia | done | done |].
  destruct (quiet_boot t3 l3 d2 d3) as [B3 C3];
    [unfold MAX_CRASH_ATTEMPTS; lia | done | done |].
  assert (B : int_wrap (Preferences.getInt (prefs (power_on d3)) "boot_count" 0 + 1) = 4).
  { cbn. unfold boot_count in *. rewrite int_wrap_small; lia. }
  destruct (begin_crash_loop t4 (power_on d3)) as (d4 & E & Hp & Hl).
  { cbn zeta. rewrite B. unfold MAX_CRASH_ATTEMPTS. lia. }
  rewrite B in Hp, Hl. cbn in Hl. rewrite C3, C2, C1 in Hl.
  exists d4. repeat split; try done.
  - unfold last_fail. rewrite Hp. by autorewrite with ledger.
  - intros l4. unfold bind. by rewrite E.
Qed.

Lemma crash_loop_on_fourth_boot_witness :
  exists d4,
    begin 75 (power_on after_boot3) = Reboot d4 /\
    last_fail d4 = reason_code REASON_CRASH_LOOP.
Proof.
  destruct (crash_loop_on_fourth_boot fresh_device after_boot1 after_boot2 after_boot3
              100 130 90 75
              [mkObs 600 true false] [mkObs 630 true false] [mkObs 590 true false])
    as (d4 & E & _ & Hf & _).
  - vm_compute. reflexivity.
  - vm_compute. reflexivity.
  - vm_compute. reflexivity.
  - vm_compute. reflexivity.
  - vm_compute. reflexivity.
  - vm_compute. reflexivity.
  - vm_compute. reflexivity.
  - exists d4. split; [exact E | exact Hf].
Defined.

Lemma rollback_writes_idempotent (p : gmap string pval) c :
  Preferences.putInt (Preferences.putInt
    (Preferences.putInt (Preferences.putInt p "last_fail" c) "boot_count" 0)
    "last_fail" c) "boot_count" 0 =
  Preferences.putInt (Preferences.putInt p "last_fail" c) "boot_count" 0.
Proof.
  unfold Preferences.putInt. apply map_eq. intros k.
  rewrite !lookup_insert. repeat case_decide; congruence.
Qed.

(** C9. Calling [validateFirmware] a second time changes nothing, neither in
    RAM nor in the ledger nor in the effects performed: two calls in a row
    equal one.  [triggerRollback] ends in [ESP.restart()], so a second call
    placed after it is never reached and two calls in a row equal one; and
    were it entered again on the state the first call left, the ledger
    would be the same as after one call. *)
Theorem validate_and_rollback_idempotent d reason :
  (validateFirmware ;; validateFirmware) d = validateFirmware d /\
  validateFirmware (final (validateFirmware d)) = Done tt (final (validateFirmware d)) /\
  (triggerRollback reason ;; triggerRollback reason) d = triggerRollback reason d /\
  prefs (final (triggerRollback reason (final (triggerRollback reason d)))) =
    prefs (final (triggerRollback reason d)).
Proof.
  assert (Hv2 : validateFirmware (final (validateFirmware d)) =
                Done tt (final (validateFirmware d))).
  { destruct (_validated d) eqn:Hv.
    - rewrite (validateFirmware_again d Hv). cbn. by apply validateFirmware_again.
    - destruct (validateFirmware_fresh d Hv) as (d' & E & Hv' & _).
      rewrite E. cbn. by apply validateFirmware_again. }
  repeat split.
  - unfold bind. destruct (validateFirmware d) as [[] d'|d'] eqn:E; [|done].
    cbn in Hv2. done.
  - done.
  - unfold bind.
    destruct (triggerRollback_reboots reason d) as (d' & E & _). by rewrite E.
  - destruct (triggerRollback_reboots reason d) as (d' & E & Hp & _).
    destruct (triggerRollback_reboots reason d') as (d2 & E2 & Hp2 & _).
    rewrite E. cbn [final]. rewrite E2. cbn [final]. rewrite Hp2, Hp.
    apply rollback_writes_idempotent.
Qed.

(** C4, as stated, fails: [triggerRollback] also writes 0 to "boot_count".
    On a device in its third unvalidated boot (counter 2) a rollback for a
    WiFi timeout leaves the counter at 0 although nothing was validated. *)
Lemma boot_count_reset_without_validation :
  let out := run_op (OpTriggerRollback REASON_WIFI_TIMEOUT) third_boot_device in
  (boot_count third_boot_device = 2 /\
   boot_count (final out) = 0 /\
   _validated (final out) = false /\
   log (final out) = [PutInt "last_fail" 2; PutInt "boot_count" 0; PrefsEnd;
                      RollBack; Restart]) /\
  ~ (forall o d,
       boot_count d <> 0 ->
       boot_count (final (run_op o d)) = 0 ->
       _validated (final (run_op o d)) = true).
Proof.
  cbn zeta. split; [vm_compute; auto|].
  intros H.
  specialize (H (OpTriggerRollback REASON_WIFI_TIMEOUT) third_boot_device).
  assert (E : _validated (final (run_op (OpTriggerRollback REASON_WIFI_TIMEOUT)
                                   third_boot_device)) = false)
    by (vm_compute; reflexivity).
  rewrite H in E; [discriminate | vm_compute; discriminate | vm_compute; reflexivity].
Qed.

(** C4, amended.  Provided [boots++] does not overflow: [begin] first
    persists the previous counter plus exactly 1 (and, when that exceeds
    MAX_CRASH_ATTEMPTS, rolls back, which leaves 0); the counter is written
    0 by [validateFirmware] when the image validates and by every
    [triggerRollback]; [check] changes it only through one of these two;
    [clearFailure] and [setPendingOTA] never change it. *)
Theorem boot_count_writes o d :
  -2147483648 <= boot_count d < 2147483647 ->
  let out := run_op o d in
  let d' := final out in
  match o with
  | OpBegin _ =>
      (exists rest, log d' = (log d ++ PutInt "boot_count" (boot_count d + 1) :: rest)%list) /\
      (if boot_count d + 1 >? MAX_CRASH_ATTEMPTS
       then rebooted out = true /\ boot_count d' = 0 /\
            last_fail d' = reason_code REASON_CRASH_LOOP
       else rebooted out = false /\ boot_count d' = boot_count d + 1)
  | OpValidateFirmware =>
      if _validated d then out = Done tt d
      else rebooted out = false /\ _validated d' = true /\ boot_count d' = 0
  | OpTriggerRollback _ => rebooted out = true /\ boot_count d' = 0
  | OpCheck _ _ _ =>
      boot_count d' = boot_count d \/
      (boot_count d' = 0 /\
       (rebooted out = true \/ (_validated d = false /\ _validated d' = true)))
  | OpClearFailure | OpSetPendingOTA _ =>
      rebooted out = false /\ boot_count d' = boot_count d
  end.
Proof.
  intros Hr out d'. subst out d'. unfold boot_count in *.
  destruct o as [now|now w m| |r| |otaId]; cbn [run_op].
  - pose proof (int_wrap_small (Preferences.getInt (prefs d) "boot_count" 0 + 1)
                  ltac:(lia)) as Hw.
    destruct (Z.gtb_spec (Preferences.getInt (prefs d) "boot_count" 0 + 1)
                MAX_CRASH_ATTEMPTS) as [Hgt|Hle].
    + destruct (begin_crash_loop now d) as (d' & E & Hp & Hl).
      { cbn zeta. rewrite Hw. lia. }
      rewrite E, Hw in *. cbn. unfold last_fail. rewrite Hl, Hp.
      autorewrite with ledger. repeat split; eauto.
    + destruct (begin_counts now d) as (d' & E & Hp & Hl & _).
      { cbn zeta. rewrite Hw. lia. }
      rewrite E, Hw in *. cbn. rewrite Hl, Hp.
      autorewrite with ledger. repeat split; eauto.
  - destruct (_validated d) eqn:Hv.
    { rewrite check_validated by done. by left. }
    destruct (Z_le_gt_dec (sub32 now (_bootTime d)) TOTAL_PROBATION_LIMIT) as [Ht|Ht].
    2:{ rewrite check_timeout by done.
        match goal with |- context [triggerRollback ?r d] =>
          destruct (triggerRollback_reboots r d) as (d' & E & Hp & _) end.
        rewrite E. cbn. rewrite Hp. autorewrite with ledger. right. auto. }
    destruct (w && m) eqn:Hl.
    + apply andb_true_iff in Hl as [-> ->]. rewrite check_link_up by done.
      destruct (_ >? _); [|by left].
      match goal with |- context [validateFirmware ?x] =>
        destruct (validateFirmware_fresh x) as (d' & E & Hv' & Hp & _); [done|] end.
      rewrite E. cbn. rewrite Hp. autorewrite with ledger. right. auto.
    + rewrite check_link_down by done. by left.
  - destruct (_validated d) eqn:Hv.
    + by apply validateFirmware_again.
    + destruct (validateFirmware_fresh d Hv) as (d' & E & Hv' & Hp & _).
      rewrite E. cbn. rewrite Hp. by autorewrite with ledger.
  - destruct (triggerRollback_reboots r d) as (d' & E & Hp & _).
    rewrite E. cbn. rewrite Hp. by autorewrite with ledger.
  - unfold clearFailure. run. by autorewrite with ledger.
  - unfold setPendingOTA. run. by autorewrite with ledger.
Qed.

Lemma boot_count_writes_witness :
  rebooted (run_op (OpTriggerRollback REASON_UNSTABLE) third_boot_device) = true /\
  boot_count (final (run_op (OpTriggerRollback REASON_UNSTABLE) third_boot_device)) = 0.
Proof.
  apply (boot_count_writes (OpTriggerRollback REASON_UNSTABLE) third_boot_device).
  vm_compute. split; [discriminate | reflexivity].
Defined.

End Watchdog.

(** ** The orchestrator *)

Section Orchestrator.
Import OTADiagnostics.

Lemma clearFailure_effect d :
  exists d',
    clearFailure d = Done tt d' /\
    prefs d' = Preferences.putString
                 (Preferences.putInt (prefs d) "last_fail" (reason_code REASON_NONE))
                 "fail_ota_id" EmptyString /\
    log d' = (log d ++ [PutInt "last_fail" 0; PutString "fail_ota_id" EmptyString])%list /\
    reportSent d' = reportSent d.
Proof.
  unfold clearFailure. run. eexists; split; [reflexivity|]. cbn.
  rewrite <- app_assoc. auto.
Qed.

(** The three things [reportRollback] can do. *)
Lemma reportRollback_cases env d :
  reportRollback env d = Done tt d \/
  (exists d' payload,
      reportRollback env d = Done tt d' /\
      reportSent d = false /\ reportSent d' = false /\
      last_fail d <> reason_code REASON_NONE /\
      client_publish env status_topic payload = false /\
      prefs d' = prefs d /\
      log d' = (log d ++ [Publish status_topic payload false])%list) \/
  (exists d' payload,
      reportRollback env d = Done tt d' /\
      reportSent d = false /\ reportSent d' = true /\
      last_fail d <> reason_code REASON_NONE /\
      client_publish env status_topic payload = true /\
      payload = failure_payload (reasonStr_of (last_fail d)) (fail_ota_id d) /\
      prefs d' = Preferences.putString
                   (Preferences.putInt (prefs d) "last_fail" (reason_code REASON_NONE))
                   "fail_ota_id" EmptyString /\
      log d' = (log d ++ [Publish status_topic payload true;
                          PutInt "last_fail" 0;
                          PutString "fail_ota_id" EmptyString])%list).
Proof.
  unfold reportRollback, getLastFailureReason, getFailedOTAId,
    prefs_getInt, prefs_getString, bind, gets, ret.
  destruct (reportSent d) eqn:Hs; [by left|].
  change (Preferences.getInt (prefs d) "last_fail" (reason_code REASON_NONE))
    with (last_fail d).
  change (Preferences.getString (prefs d) "fail_ota_id" EmptyString)
    with (fail_ota_id d).
  destruct (Z.eqb_spec (last_fail d) (reason_code REASON_NONE)) as [E|E];
    cbn [negb]; [by left|].
  change (Preferences.getString (prefs d) "fail_ota_id" EmptyString)
    with (fail_ota_id d).
  set (payload := failure_payload (reasonStr_of (last_fail d)) (fail_ota_id d)).
  unfold emit, modify. cbn beta iota.
  destruct (client_publish env status_topic payload) eqn:Hp.
  - right; right.
    match goal with |- context [clearFailure ?x] =>
      destruct (clearFailure_effect x) as (d' & Ec & Hpr & Hl & _) end.
    rewrite Ec. eexists _, payload. split; [reflexivity|]. cbn.
    rewrite Hpr, Hl. cbn. rewrite <- app_assoc. auto 10.
  - right; left. eexists _, payload. split; [reflexivity|]. cbn. auto 10.
Qed.

Lemma reportRollback_sent env d :
  reportSent d = true -> reportRollback env d = Done tt d.
Proof. intros H. unfold reportRollback, bind, gets, ret. by rewrite H. Qed.

Lemma reportRollback_nothing_pending env d :
  last_fail d = reason_code REASON_NONE -> reportRollback env d = Done tt d.
Proof.
  intros H. unfold reportRollback, getLastFailureReason, prefs_getInt, bind, gets, ret.
  destruct (reportSent d); [done|].
  change (Preferences.getInt (prefs d) "last_fail" (reason_code REASON_NONE))
    with (last_fail d).
  by rewrite H.
Qed.

(** What one entry into the connect path does to the ledger, the guard and
    the log. *)
Lemma connectPSK_effect env now d :
  exists d',
    connectPSK env now d = Done tt d' /\
    ((prefs d' = prefs d /\ reportSent d' = reportSent d /\ log d' = log d) \/
     (exists payload,
         reportSent d = false /\ reportSent d' = false /\
         prefs d' = prefs d /\
         log d' = (log d ++ [Publish status_topic payload false])%list) \/
     (exists payload,
         reportSent d = false /\ reportSent d' = true /\
         payload = failure_payload (reasonStr_of (last_fail d)) (fail_ota_id d) /\
         prefs d' = Preferences.putString
                      (Preferences.putInt (prefs d) "last_fail" (reason_code REASON_NONE))
                      "fail_ota_id" EmptyString /\
         log d' = (log d ++ [Publish status_topic payload true;
                             PutInt "last_fail" 0;
                             PutString "fail_ota_id" EmptyString])%list)).
Proof.
  unfold connectPSK, bind, gets, ret, modify.
  destruct (client_connected env); [eauto 10|].
  destruct (_ >? _); [|eauto 10].
  destruct (WiFi_connected env); [|eexists; split; [reflexivity|]; left; by cbn].
  destruct (client_connect env); [|eexists; split; [reflexivity|]; left; by cbn].
  set (d0 := with_lastReconnectAttempt now d).
  destruct (reportRollback_cases env d0)
    as [E | [(d' & payload & E & H1 & H2 & _ & _ & H3 & H4)
           | (d' & payload & E & H1 & H2 & _ & _ & H3 & H4 & H5)]];
    rewrite E; eexists; (split; [reflexivity|]).
  - left. by cbn.
  - right; left. exists payload. by cbn in *.
  - right; right. exists payload. by cbn in *.
Qed.

Lemma count_published_failed pre :
  Forall failed_publish pre -> count_published pre = 0%nat.
Proof.
  unfold count_published. induction 1 as [|e pre (t & pl & ->) _ IH]; [done|].
  rewrite filter_cons_False; [done|]. cbn. discriminate.
Qed.

(** C5. Over any number of entries into the connect path in one boot, each
    with its own network conditions: the failure report is published
    successfully at most once, and never again once [reportSent] is set;
    every other attempt is a publish that returned false.  The ledger is
    untouched as long as no publish has succeeded; [last_fail] and
    [fail_ota_id] are cleared by the two writes that directly follow the
    successful publish. *)
Theorem failure_report_at_most_once l d :
  exists d' new pre,
    connects l d = Done tt d' /\
    log d' = (log d ++ new)%list /\
    (count_published new <= 1)%nat /\
    (if reportSent d then new = [] else True) /\
    Forall failed_publish pre /\
    ((new = pre /\ prefs d' = prefs d /\ reportSent d' = reportSent d) \/
     (exists payload,
         new = (pre ++ [Publish status_topic payload true;
                        PutInt "last_fail" 0;
                        PutString "fail_ota_id" EmptyString])%list /\
         payload = failure_payload (reasonStr_of (last_fail d)) (fail_ota_id d) /\
         reportSent d = false /\ reportSent d' = true /\
         last_fail d' = reason_code REASON_NONE /\
         fail_ota_id d' = EmptyString /\
         boot_count d' = boot_count d)).
Proof.
  revert d. induction l as [|[env now] l IH]; intros d.
  { exists d, [], []. cbn. rewrite app_nil_r.
    repeat split; auto. by destruct (reportSent d). }
  cbn [connects]. unfold bind.
  destruct (connectPSK_effect env now d) as (d1 & E1 & Hcases). rewrite E1.
  destruct (IH d1) as (d' & new & pre & E & Hlog & Hcnt & Hsent & Hpre & Hshape).
  destruct Hcases as [(P1 & S1 & L1)
                     | [(payload & S0 & S1 & P1 & L1)
                       | (payload & S0 & S1 & Hpl & P1 & L1)]].
  - (* nothing published in this entry *)
    exists d', new, pre. rewrite E, Hlog, L1, <- S1.
    unfold last_fail, fail_ota_id, boot_count in *. rewrite <- P1.
    repeat split; auto.
  - (* a publish that failed *)
    exists d', (Publish status_topic payload false :: new),
           (Publish status_topic payload false :: pre).
    rewrite E, Hlog, L1, <- app_assoc, S0. cbn [app].
    assert (Hf : failed_publish (Publish status_topic payload false))
      by (by eexists _, _).
    repeat split; auto.
    destruct Hshape as [(-> & P & S) | (pl & -> & Hpl & S & S' & F & I & B)].
    + left. rewrite P, P1, S, S1. done.
    + right. exists pl. unfold last_fail, fail_ota_id, boot_count in *.
      rewrite <- P1. repeat split; auto.
  - (* the publish that succeeded *)
    rewrite S1 in Hsent. subst new.
    exists d', [Publish status_topic payload true; PutInt "last_fail" 0;
                PutString "fail_ota_id" EmptyString], [].
    rewrite E, Hlog, app_nil_r, L1, S0.
    destruct Hshape as [(_ & P & S) | (pl & Hnil & _)].
    2:{ by destruct pre. }
    repeat split; auto.
    right. exists payload. unfold last_fail, fail_ota_id, boot_count.
    rewrite P, P1, S, S1. autorewrite with ledger. repeat split; auto.
Qed.

Example flapping_connection_reports_once :
  log (final (connects [(connect_env false, 6000); (connect_env true, 12000);
                        (connect_env true, 18000)] rolled_back_device)) =
    [Publish status_topic (failure_payload "wifi_timeout" "33") false;
     Publish status_topic (failure_payload "wifi_timeout" "33") true;
     PutInt "last_fail" 0; PutString "fail_ota_id" EmptyString].
Proof. vm_compute. reflexivity. Qed.

Lemma publishOTAStatus_effect env status otaId d :
  publishOTAStatus env status otaId d =
    Done tt (with_log (log d ++ status_events env status otaId) d).
Proof.
  unfold publishOTAStatus, status_events, emit, modify, ret.
  destruct (client_connected env); cbn; [done|].
  rewrite app_nil_r. by destruct d.
Qed.

Lemma handleOTAUpdate_valid env payload doc otaUrl otaId d :
  deserializeJson env payload = Some doc ->
  as_cstr doc "otaUrl" = Some otaUrl ->
  as_cstr doc "otaId" = Some otaId ->
  handleOTAUpdate env payload d =
    (setPendingOTA otaId ;;
     emit (HttpUpdate otaUrl) ;;
     match httpUpdate_update env otaUrl with
     | HTTP_UPDATE_OK =>
         publishOTAStatus env "completed" otaId ;; emit (Delay 1000) ;; ESP_restart
     | _ => publishOTAStatus env "failed" otaId ;; clearFailure
     end) d.
Proof.
  intros H1 H2 H3. unfold handleOTAUpdate. rewrite H1. cbn zeta. rewrite H2, H3.
  by destruct (httpUpdate_update env otaUrl).
Qed.

(** The update that fails before any reboot. *)
Lemma handleOTAUpdate_failed env payload doc otaUrl otaId d :
  deserializeJson env payload = Some doc ->
  as_cstr doc "otaUrl" = Some otaUrl ->
  as_cstr doc "otaId" = Some otaId ->
  httpUpdate_update env otaUrl <> HTTP_UPDATE_OK ->
  exists d',
    handleOTAUpdate env payload d = Done tt d' /\
    log d' = (log d ++ [PutString "fail_ota_id" otaId; HttpUpdate otaUrl] ++
              status_events env "failed" otaId ++
              [PutInt "last_fail" 0; PutString "fail_ota_id" EmptyString])%list /\
    prefs d' = Preferences.putString
                 (Preferences.putInt
                    (Preferences.putString (prefs d) "fail_ota_id" otaId)
                    "last_fail" (reason_code REASON_NONE))
                 "fail_ota_id" EmptyString /\
    reportSent d' = reportSent d /\ _validated d' = _validated d.
Proof.
  intros H1 H2 H3 H4. rewrite (handleOTAUpdate_valid _ _ _ _ _ _ H1 H2 H3).
  unfold setPendingOTA, bind at 1 2. unfold prefs_putString, bind at 1, modify, emit, modify.
  cbn beta iota.
  assert (E : forall x,
    match httpUpdate_update env otaUrl with
    | HTTP_UPDATE_OK =>
        publishOTAStatus env "completed" otaId ;; emit (Delay 1000) ;; ESP_restart
    | _ => publishOTAStatus env "failed" otaId ;; clearFailure
    end x = (publishOTAStatus env "failed" otaId ;; clearFailure) x).
  { intros x. by destruct (httpUpdate_update env otaUrl). }
  rewrite E. unfold bind. rewrite publishOTAStatus_effect.
  match goal with |- context [clearFailure ?x] =>
    destruct (clearFailure_effect x) as (d' & Ec & Hp & Hl & Hs) end.
  exists d'. rewrite Ec. split; [done|]. rewrite Hp, Hl, Hs. cbn.
  rewrite <- !app_assoc. cbn.
  assert (Hv : _validated d' = _validated d).
  { unfold clearFailure in Ec. revert Ec. run. intros Ec. inversion Ec. done. }
  done.
Qed.

(** The update that succeeds. *)
Lemma handleOTAUpdate_ok env payload doc otaUrl otaId d :
  deserializeJson env payload = Some doc ->
  as_cstr doc "otaUrl" = Some otaUrl ->
  as_cstr doc "otaId" = Some otaId ->
  httpUpdate_update env otaUrl = HTTP_UPDATE_OK ->
  exists d',
    handleOTAUpdate env payload d = Reboot d' /\
    log d' = (log d ++ [PutString "fail_ota_id" otaId; HttpUpdate otaUrl] ++
              status_events env "completed" otaId ++ [Delay 1000; Restart])%list /\
    prefs d' = Preferences.putString (prefs d) "fail_ota_id" otaId.
Proof.
  intros H1 H2 H3 H4. rewrite (handleOTAUpdate_valid _ _ _ _ _ _ H1 H2 H3), H4.
  unfold setPendingOTA, bind at 1 2. unfold prefs_putString, bind at 1, modify, emit, modify.
  cbn beta iota. unfold bind at 1. rewrite publishOTAStatus_effect.
  unfold bind, emit, modify, ESP_restart. cbn.
  eexists; split; [reflexivity|]. cbn. rewrite <- !app_assoc. done.
Qed.

Ltac no_publish H :=
  destruct H as (t & pl & ok & H); cbn in H;
  repeat (destruct H as [H|H]; [discriminate H|]); exact H.

(** C7, as stated, fails: the status is published only while the MQTT
    client is connected.  An update for id 33 that fails after the
    connection was lost clears the pending id without publishing anything. *)
Lemma failed_update_offline_publishes_nothing :
  let out := handleOTAUpdate (sample_env false HTTP_UPDATE_FAILED) msg33 fresh_device in
  last_fail fresh_device = reason_code REASON_NONE /\
  out = Done tt (final out) /\
  log (final out) = [PutString "fail_ota_id" "33"; HttpUpdate sample_url;
                     PutInt "last_fail" 0; PutString "fail_ota_id" EmptyString] /\
  ~ (exists topic payload ok, In (Publish topic payload ok) (log (final out))).
Proof.
  cbn zeta. split; [vm_compute; reflexivity|].
  split; [vm_compute; reflexivity|].
  split; [vm_compute; reflexivity|].
  intros H. vm_compute in H. no_publish H.
Qed.

(** C7, amended.  An update for id 33 that fails during apply (failed or
    no-update result) with no failure reason stored: the pending id "33" is
    persisted first; if the MQTT client is connected at that moment, the
    status {"status": "failed", "otaId": "33"} is handed to publish
    (otherwise nothing is published); then the pending id is cleared to
    empty and the failure reason stays REASON_NONE; the device is not
    restarted. *)
Theorem failed_update_report_and_cleanup env payload doc otaUrl d :
  deserializeJson env payload = Some doc ->
  as_cstr doc "otaUrl" = Some otaUrl ->
  as_cstr doc "otaId" = Some "33" ->
  httpUpdate_update env otaUrl <> HTTP_UPDATE_OK ->
  last_fail d = reason_code REASON_NONE ->
  exists d',
    handleOTAUpdate env payload d = Done tt d' /\
    log d' = (log d ++ [PutString "fail_ota_id" "33"; HttpUpdate otaUrl] ++
              (if client_connected env
               then [Publish status_topic (status_payload "failed" "33")
                       (client_publish env status_topic (status_payload "failed" "33"))]
               else []) ++
              [PutInt "last_fail" 0; PutString "fail_ota_id" EmptyString])%list /\
    fail_ota_id d' = EmptyString /\
    last_fail d' = reason_code REASON_NONE /\
    boot_count d' = boot_count d.
Proof.
  intros H1 H2 H3 H4 H5.
  destruct (handleOTAUpdate_failed env payload doc otaUrl "33" d H1 H2 H3 H4)
    as (d' & E & Hl & Hp & _).
  exists d'. split; [done|]. split; [exact Hl|].
  unfold fail_ota_id, last_fail, boot_count. rewrite Hp.
  by autorewrite with ledger.
Qed.

Lemma failed_update_report_and_cleanup_witness :
  exists d',
    handleOTAUpdate (sample_env true HTTP_UPDATE_NO_UPDATES) msg33 fresh_device = Done tt d' /\
    In (Publish status_topic (status_payload "failed" "33") true) (log d') /\
    fail_ota_id d' = EmptyString.
Proof.
  destruct (failed_update_report_and_cleanup (sample_env true HTTP_UPDATE_NO_UPDATES)
              msg33 doc33 sample_url fresh_device)
    as (d' & E & Hl & Hf & _).
  - vm_compute. reflexivity.
  - vm_compute. reflexivity.
  - vm_compute. reflexivity.
  - cbn. discriminate.
  - vm_compute. reflexivity.
  - exists d'. split; [exact E|]. split; [|exact Hf].
    rewrite Hl. cbn. right. right. left. reflexivity.
Defined.

(** C8, as stated, fails for the same reason: an update for id 33 that
    succeeds after the connection was lost restarts the device without
    publishing the "completed" status. *)
Lemma successful_update_offline_publishes_nothing :
  let out := handleOTAUpdate (sample_env false HTTP_UPDATE_OK) msg33 fresh_device in
  out = Reboot (final out) /\
  log (final out) = [PutString "fail_ota_id" "33"; HttpUpdate sample_url;
                     Delay 1000; Restart] /\
  ~ (exists topic payload ok, In (Publish topic payload ok) (log (final out))).
Proof.
  cbn zeta. split; [vm_compute; reflexivity|].
  split; [vm_compute; reflexivity|].
  intros H. vm_compute in H. no_publish H.
Qed.

(** C8, amended.  An update for id 33 that succeeds: the pending id "33" is
    persisted; if the MQTT client is connected at that moment, the status
    {"status": "completed", "otaId": "33"} is handed to publish (otherwise
    nothing is published); the device then restarts unconditionally.  At
    the restart the ledger is the one before the update with "fail_ota_id"
    set to "33": the success path clears nothing and changes no other
    entry. *)
Theorem successful_update_keeps_pending_id env payload doc otaUrl d :
  deserializeJson env payload = Some doc ->
  as_cstr doc "otaUrl" = Some otaUrl ->
  as_cstr doc "otaId" = Some "33" ->
  httpUpdate_update env otaUrl = HTTP_UPDATE_OK ->
  exists d',
    handleOTAUpdate env payload d = Reboot d' /\
    log d' = (log d ++ [PutString "fail_ota_id" "33"; HttpUpdate otaUrl] ++
              (if client_connected env
               then [Publish status_topic (status_payload "completed" "33")
                       (client_publish env status_topic (status_payload "completed" "33"))]
               else []) ++
              [Delay 1000; Restart])%list /\
    prefs d' = Preferences.putString (prefs d) "fail_ota_id" "33" /\
    fail_ota_id d' = "33" /\
    last_fail d' = last_fail d /\
    boot_count d' = boot_count d /\
    (forall key, key <> "fail_ota_id" -> prefs d' !! key = prefs d !! key).
Proof.
  intros H1 H2 H3 H4.
  destruct (handleOTAUpdate_ok env payload doc otaUrl "33" d H1 H2 H3 H4)
    as (d' & E & Hl & Hp).
  exists d'. split; [done|]. split; [exact Hl|]. split; [exact Hp|].
  unfold fail_ota_id, last_fail, boot_count. rewrite Hp.
  autorewrite with ledger. repeat split; auto.
  intros key Hk. unfold Preferences.putString. by rewrite lookup_insert_ne.
Qed.

Lemma successful_update_keeps_pending_id_witness :
  exists d',
    handleOTAUpdate (sample_env true HTTP_UPDATE_OK) msg33 third_boot_device = Reboot d' /\
    fail_ota_id d' = "33" /\ boot_count d' = 2.
Proof.
  destruct (successful_update_keeps_pending_id (sample_env true HTTP_UPDATE_OK)
              msg33 doc33 sample_url third_boot_device)
    as (d' & E & _ & _ & Hf & _ & Hb & _).
  - vm_compute. reflexivity.
  - vm_compute. reflexivity.
  - vm_compute. reflexivity.
  - reflexivity.
  - exists d'. split; [exact E|]. split; [exact Hf|]. rewrite Hb.
    vm_compute. reflexivity.
Defined.

Lemma connects_nothing_pending l d :
  last_fail d = reason_code REASON_NONE ->
  exists d', connects l d = Done tt d' /\ log d' = log d /\ prefs d' = prefs d.
Proof.
  revert d. induction l as [|[env now] l IH]; intros d Hn; [by exists d|].
  cbn [connects]. unfold bind.
  assert (H1 : exists d1, connectPSK env now d = Done tt d1 /\
                          log d1 = log d /\ prefs d1 = prefs d).
  { unfold connectPSK, bind, gets, ret, modify.
    destruct (client_connected env); [eauto|].
    destruct (_ >? _); [|eauto].
    destruct (WiFi_connected env); [|eauto].
    destruct (client_connect env); [|eauto].
    rewrite reportRollback_nothing_pending by done. eauto. }
  destruct H1 as (d1 & -> & L1 & P1).
  destruct (IH d1) as (d' & E & L & P).
  { unfold last_fail in *. by rewrite P1. }
  exists d'. by rewrite E, L, P, L1, P1.
Qed.

(** C10. When an update attempt fails before reboot (failed or no-update
    result) while a failure reason from an earlier rollback is still stored
    and unreported, the failed path calls [clearFailure], which writes
    "last_fail" = REASON_NONE and empties "fail_ota_id": the only message
    that may go out is the status of the new attempt, and afterwards the
    report path finds nothing to report, however often it is entered. *)
Theorem failed_update_erases_unreported_failure env payload doc otaUrl otaId d :
  deserializeJson env payload = Some doc ->
  as_cstr doc "otaUrl" = Some otaUrl ->
  as_cstr doc "otaId" = Some otaId ->
  httpUpdate_update env otaUrl <> HTTP_UPDATE_OK ->
  last_fail d <> reason_code REASON_NONE ->
  exists d',
    handleOTAUpdate env payload d = Done tt d' /\
    log d' = (log d ++ [PutString "fail_ota_id" otaId; HttpUpdate otaUrl] ++
              (if client_connected env
               then [Publish status_topic (status_payload "failed" otaId)
                       (client_publish env status_topic (status_payload "failed" otaId))]
               else []) ++
              [PutInt "last_fail" (reason_code REASON_NONE);
               PutString "fail_ota_id" EmptyString])%list /\
    last_fail d' = reason_code REASON_NONE /\
    fail_ota_id d' = EmptyString /\
    (forall env', reportRollback env' d' = Done tt d') /\
    (forall l, log (final (connects l d')) = log d').
Proof.
  intros H1 H2 H3 H4 _.
  destruct (handleOTAUpdate_failed env payload doc otaUrl otaId d H1 H2 H3 H4)
    as (d' & E & Hl & Hp & _).
  assert (Hn : last_fail d' = reason_code REASON_NONE).
  { unfold last_fail. rewrite Hp. by autorewrite with ledger. }
  exists d'. split; [done|]. split; [exact Hl|]. split; [exact Hn|].
  split; [unfold fail_ota_id; rewrite Hp; by autorewrite with ledger|].
  split.
  - intros env'. by apply reportRollback_nothing_pending.
  - intros l. destruct (connects_nothing_pending l d' Hn) as (d2 & -> & L & _). done.
Qed.

Lemma failed_update_erases_unreported_failure_witness :
  last_fail rolled_back_device = reason_code REASON_WIFI_TIMEOUT /\
  exists d',
    handleOTAUpdate (sample_env true HTTP_UPDATE_FAILED) msg33 rolled_back_device
      = Done tt d' /\
    last_fail d' = reason_code REASON_NONE /\
    reportRollback (connect_env true) d' = Done tt d'.
Proof.
  split; [vm_compute; reflexivity|].
  destruct (failed_update_erases_unreported_failure (sample_env true HTTP_UPDATE_FAILED)
              msg33 doc33 sample_url "33" rolled_back_device)
    as (d' & E & _ & Hn & _ & Hr & _).
  - vm_compute. reflexivity.
  - vm_compute. reflexivity.
  - vm_compute. reflexivity.
  - cbn. discriminate.
  - vm_compute. discriminate.
  - exists d'. split; [exact E|]. split; [exact Hn|]. apply Hr.
Defined.

(** C6, as stated, fails: [callback] hands a message to [handleOTAUpdate]
    only if [indexOf] finds "otaVersion" in its text at an index above 0.  An
    instruction with "otaUrl" and "otaId" but without "otaVersion" is
    dropped, while the same instruction with "otaVersion" is carried out. *)
Lemma instruction_without_otaVersion_is_dropped :
  let env := sample_env true HTTP_UPDATE_NO_UPDATES in
  deserializeJson env msg33_bare = Some doc33_bare /\
  as_cstr doc33_bare "otaUrl" = Some sample_url /\
  as_cstr doc33_bare "otaId" = Some "33" /\
  callback env msg33_bare fresh_device = Done tt fresh_device /\
  log (final (callback env msg33 fresh_device)) =
    [PutString "fail_ota_id" "33"; HttpUpdate sample_url;
     Publish status_topic (status_payload "failed" "33") true;
     PutInt "last_fail" 0; PutString "fail_ota_id" EmptyString] /\
  callback env msg33 fresh_device <> callback env msg33_bare fresh_device.
Proof.
  cbn zeta. repeat split; try (vm_compute; reflexivity).
  intros H. apply (f_equal (fun o => log (final o))) in H.
  vm_compute in H. discriminate H.
Qed.

(** C6, amended.  [callback] dispatches a message to the update handler
    exactly when [indexOf] finds "otaVersion" in its text at an index above
    0 (an occurrence after a NUL byte is not found), and drops it otherwise.
    Inside the handler nothing depends on the "otaVersion" member: two
    instructions with the same "otaUrl" and "otaId" are handled identically,
    and so are dispatched identically whenever both pass the text test.  An instruction without "otaUrl" or without
    "otaId" is discarded with no effect. *)
Theorem otaVersion_only_gates_dispatch env m1 m2 doc1 doc2 d :
  deserializeJson env m1 = Some doc1 ->
  deserializeJson env m2 = Some doc2 ->
  as_cstr doc1 "otaUrl" = as_cstr doc2 "otaUrl" ->
  as_cstr doc1 "otaId" = as_cstr doc2 "otaId" ->
  handleOTAUpdate env m1 d = handleOTAUpdate env m2 d /\
  callback env m1 d =
    (if indexOf m1 "otaVersion" >? 0 then handleOTAUpdate env m1 d else Done tt d) /\
  (indexOf m1 "otaVersion" > 0 -> indexOf m2 "otaVersion" > 0 ->
   callback env m1 d = callback env m2 d) /\
  (as_cstr doc1 "otaUrl" = None \/ as_cstr doc1 "otaId" = None ->
   handleOTAUpdate env m1 d = Done tt d).
Proof.
  intros H1 H2 Hu Hi.
  assert (Hh : handleOTAUpdate env m1 d = handleOTAUpdate env m2 d).
  { unfold handleOTAUpdate. rewrite H1, H2. cbn zeta. by rewrite Hu, Hi. }
  split; [exact Hh|]. split; [|split].
  - unfold callback. by destruct (_ >? _).
  - intros G1 G2. unfold callback.
    destruct (Z.gtb_spec (indexOf m1 "otaVersion") 0); [|lia].
    destruct (Z.gtb_spec (indexOf m2 "otaVersion") 0); [|lia]. exact Hh.
  - intros Hmiss. unfold handleOTAUpdate. rewrite H1. cbn zeta.
    destruct Hmiss as [-> | ->]; [done|].
    by destruct (as_cstr doc1 "otaUrl").
Qed.

Lemma otaVersion_only_gates_dispatch_witness :
  handleOTAUpdate (sample_env true HTTP_UPDATE_OK) msg33 fresh_device =
  handleOTAUpdate (sample_env true HTTP_UPDATE_OK) msg33_bare fresh_device.
Proof.
  apply (otaVersion_only_gates_dispatch (sample_env true HTTP_UPDATE_OK)
           msg33 msg33_bare doc33 doc33_bare fresh_device).
  - vm_compute. reflexivity.
  - vm_compute. reflexivity.
  - vm_compute. reflexivity.
  - vm_compute. reflexivity.
Defined.

End Orchestrator.

(** ** Validation and stability windows *)

Section Stability.
Import OTADiagnostics.

Lemma sub32_range a b : 0 <= sub32 a b < two32.
Proof. unfold sub32, two32. apply Z.mod_pos_bound. lia. Qed.

(** Differences of clock readings are differences of times since boot. *)
Lemma sub32_via_boot boot a b :
  sub32 b boot <= sub32 a boot ->
  sub32 a b = sub32 a boot - sub32 b boot.
Proof.
  intros Hle. pose proof (sub32_range a boot). pose proof (sub32_range b boot).
  unfold sub32 in *.
  replace (a - b) with ((a - boot) - (b - boot)) by lia.
  rewrite Zminus_mod. apply Z.mod_small. lia.
Qed.

Lemma sub32_self a : sub32 a a = 0.
Proof. unfold sub32. by rewrite Z.sub_diag. Qed.

(** One [check] inside the probation period, seen through the three fields
    it works on. *)
Lemma check_up_step now d :
  _validated d = false ->
  sub32 now (_bootTime d) <= TOTAL_PROBATION_LIMIT ->
  let s := if _stabilityStartTime d =? 0 then now else _stabilityStartTime d in
  exists d',
    check now true true d = Done tt d' /\
    _bootTime d' = _bootTime d /\
    _stabilityStartTime d' = s /\
    _validated d' = (sub32 now s >? STABILITY_DURATION).
Proof.
  intros Hv Ht s. rewrite check_link_up by done. fold s.
  destruct (sub32 now s >? STABILITY_DURATION).
  - destruct (validateFirmware_fresh (with_stabilityStartTime s d))
      as (d' & E & Hv' & _ & _ & _ & Hb & Hs); [done|].
    exists d'. by rewrite E, Hb, Hs, Hv'.
  - eexists; split; [reflexivity|]. by cbn.
Qed.

Lemma check_down_step now w m d :
  _validated d = false ->
  sub32 now (_bootTime d) <= TOTAL_PROBATION_LIMIT ->
  w && m = false ->
  exists d',
    check now w m d = Done tt d' /\
    _bootTime d' = _bootTime d /\
    _stabilityStartTime d' = 0 /\
    _validated d' = false.
Proof.
  intros Hv Ht Hl. rewrite check_link_down by done.
  eexists; split; [reflexivity|]. by cbn.
Qed.

Lemma check_timeout_step now w m d :
  _validated d = false ->
  sub32 now (_bootTime d) > TOTAL_PROBATION_LIMIT ->
  exists d', check now w m d = Reboot d' /\ _validated d' = false.
Proof.
  intros Hv Ht. rewrite check_timeout by done.
  match goal with |- context [triggerRollback ?r d] =>
    destruct (triggerRollback_reboots r d) as (d' & E & _ & _ & Hv') end.
  exists d'. by rewrite E, Hv', Hv.
Qed.

Lemma both_up_true o : both_up o -> o_wifi o = true /\ o_mqtt o = true.
Proof. done. Qed.

Lemma not_both_up o : ~ both_up o -> o_wifi o && o_mqtt o = false.
Proof. unfold both_up. destruct (o_wifi o), (o_mqtt o); intuition. Qed.

Lemma both_up_dec o : {both_up o} + {~ both_up o}.
Proof.
  unfold both_up. destruct (o_wifi o), (o_mqtt o); auto; right; intros []; done.
Qed.

Lemma checks_cons o l d :
  checks (o :: l) d =
    match check (o_now o) (o_wifi o) (o_mqtt o) d with
    | Done _ d' => checks l d'
    | Reboot d' => Reboot d'
    end.
Proof. reflexivity. Qed.

Section OneBoot.
Variable boot : Z.

(** If a run of [check]s validates, it contains a window: either the
    stretch that is already open in the starting state runs on long
    enough, or a later stretch does. *)
Lemma validated_gives_window l : forall d,
  _validated d = false ->
  _bootTime d = boot ->
  _validated (final (checks l d)) = true ->
  (_stabilityStartTime d <> 0 /\
   exists mid oj post,
     l = (mid ++ oj :: post)%list /\ Forall both_up mid /\ both_up oj /\
     sub32 (o_now oj) (_stabilityStartTime d) > STABILITY_DURATION /\
     elapsed boot oj <= TOTAL_PROBATION_LIMIT) \/
  (exists pre oi mid oj post,
     l = (pre ++ oi :: mid ++ oj :: post)%list /\
     both_up oi /\ Forall both_up mid /\ both_up oj /\
     o_now oi <> 0 /\
     sub32 (o_now oj) (o_now oi) > STABILITY_DURATION /\
     elapsed boot oj <= TOTAL_PROBATION_LIMIT).
Proof.
  induction l as [|o l IH]; intros d Hv Hb Hfin.
  { cbn in Hfin. congruence. }
  rewrite checks_cons in Hfin.
  destruct (Z_le_gt_dec (sub32 (o_now o) (_bootTime d)) TOTAL_PROBATION_LIMIT)
    as [Ht|Ht].
  2:{ destruct (check_timeout_step (o_now o) (o_wifi o) (o_mqtt o) d Hv Ht)
        as (d' & E & Hv'). rewrite E in Hfin. cbn in Hfin. congruence. }
  destruct (both_up_dec o) as [Hup|Hdown].
  - destruct (both_up_true o Hup) as [Hw Hm]. rewrite Hw, Hm in Hfin.
    destruct (check_up_step (o_now o) d Hv Ht) as (d1 & E & Hb1 & Hs1 & Hv1).
    rewrite E in Hfin.
    destruct (Z.eqb_spec (_stabilityStartTime d) 0) as [Hs0|Hs0].
    + (* the stretch opens here *)
      rewrite sub32_self in Hv1. cbn in Hv1.
      destruct (IH d1 Hv1 ltac:(congruence) Hfin)
        as [(Hne & mid & oj & post & -> & Hmid & Hj & Hlen & Hlim)
           | (pre & oi & mid & oj & post & -> & Hi & Hmid & Hj & Hne & Hlen & Hlim)].
      * right. exists [], o, mid, oj, post. rewrite Hs1 in Hne, Hlen. done.
      * right. exists (o :: pre), oi, mid, oj, post. done.
    + (* the stretch was open already *)
      destruct (Z.gtb_spec (sub32 (o_now o) (_stabilityStartTime d)) STABILITY_DURATION)
        as [Hgt|Hle].
      * left. split; [done|]. exists [], o, l. rewrite Hb in Ht.
        split_and!; auto. lia.
      * destruct (IH d1 Hv1 ltac:(congruence) Hfin)
          as [(Hne & mid & oj & post & -> & Hmid & Hj & Hlen & Hlim)
             | (pre & oi & mid & oj & post & -> & Hi & Hmid & Hj & Hne & Hlen & Hlim)].
        -- left. split; [done|]. exists (o :: mid), oj, post.
           rewrite Hs1 in Hlen. split_and!; auto.
        -- right. exists (o :: pre), oi, mid, oj, post. done.
  - destruct (check_down_step (o_now o) (o_wifi o) (o_mqtt o) d Hv Ht
                (not_both_up o Hdown)) as (d1 & E & Hb1 & Hs1 & Hv1).
    rewrite E in Hfin.
    destruct (IH d1 Hv1 ltac:(congruence) Hfin)
      as [(Hne & _) | (pre & oi & mid & oj & post & -> & Hi & Hmid & Hj & Hne & Hlen & Hlim)].
    + congruence.
    + right. exists (o :: pre), oi, mid, oj, post. done.
Qed.

(** An open stretch that runs on until its length exceeds
    STABILITY_DURATION validates. *)
Lemma stretch_validates mid oj post : forall d,
  _validated d = false ->
  _bootTime d = boot ->
  _stabilityStartTime d <> 0 ->
  Forall both_up mid -> both_up oj ->
  Forall (fun o => elapsed boot o <= TOTAL_PROBATION_LIMIT) mid ->
  elapsed boot oj <= TOTAL_PROBATION_LIMIT ->
  sub32 (o_now oj) (_stabilityStartTime d) > STABILITY_DURATION ->
  _validated (final (checks (mid ++ oj :: post) d)) = true.
Proof.
  induction mid as [|o mid IH]; intros d Hv Hb Hs Hmid Hj Hlim Hlimj Hlen.
  - cbn [app]. rewrite checks_cons.
    destruct (both_up_true oj Hj) as [-> ->].
    destruct (check_up_step (o_now oj) d Hv ltac:(by rewrite Hb))
      as (d1 & -> & _ & Hs1 & Hv1).
    destruct (Z.eqb_spec (_stabilityStartTime d) 0); [done|].
    destruct (Z.gtb_spec (sub32 (o_now oj) (_stabilityStartTime d)) STABILITY_DURATION);
      [|lia].
    by rewrite checks_validated.
  - cbn [app]. rewrite checks_cons.
    apply Forall_cons in Hmid as [Ho Hmid]. apply Forall_cons in Hlim as [Hlo Hlim].
    destruct (both_up_true o Ho) as [-> ->].
    destruct (check_up_step (o_now o) d Hv ltac:(by rewrite Hb))
      as (d1 & -> & Hb1 & Hs1 & Hv1).
    destruct (Z.eqb_spec (_stabilityStartTime d) 0); [done|].
    destruct (_validated d1) eqn:Hvd1.
    + by rewrite checks_validated.
    + apply IH; auto; congruence.
Qed.

Lemma window_end_in_tail (mid : list obs) oj post : oj ∈ (mid ++ oj :: post)%list.
Proof. apply elem_of_app. right. apply elem_of_cons. by left. Qed.

(** A window anywhere in a monotonic run validates, whatever stretch is
    open in the starting state, as long as that stretch did not open
    after the run began. *)
Lemma window_validates pre oi mid oj post : forall d,
  _validated d = false ->
  _bootTime d = boot ->
  (_stabilityStartTime d = 0 \/
   Forall (fun o => sub32 (_stabilityStartTime d) boot <= elapsed boot o)
          (pre ++ oi :: mid ++ oj :: post)) ->
  StronglySorted (fun a b => elapsed boot a <= elapsed boot b)
                 (pre ++ oi :: mid ++ oj :: post) ->
  both_up oi -> Forall both_up mid -> both_up oj ->
  o_now oi <> 0 ->
  sub32 (o_now oj) (o_now oi) > STABILITY_DURATION ->
  elapsed boot oj <= TOTAL_PROBATION_LIMIT ->
  _validated (final (checks (pre ++ oi :: mid ++ oj :: post) d)) = true.
Proof.
  induction pre as [|o pre IH]; intros d Hv Hb Hinv Hsort Hi Hmid Hj Hne Hlen Hlim.
  - cbn [app] in *. rewrite checks_cons.
    apply StronglySorted_cons in Hsort as [Hio Hsort].
    assert (Hij : elapsed boot oi <= elapsed boot oj).
    { rewrite Forall_forall in Hio. apply Hio, window_end_in_tail. }
    assert (Ht : sub32 (o_now oi) (_bootTime d) <= TOTAL_PROBATION_LIMIT).
    { rewrite Hb. unfold elapsed in Hij, Hlim. lia. }
    destruct (both_up_true oi Hi) as [-> ->].
    destruct (check_up_step (o_now oi) d Hv Ht) as (d1 & -> & Hb1 & Hs1 & Hv1).
    destruct (_validated d1) eqn:Hvd1; [by rewrite checks_validated|].
    apply stretch_validates; auto; try congruence.
    + rewrite Hs1. by destruct (Z.eqb_spec (_stabilityStartTime d) 0).
    + apply StronglySorted_app in Hsort as (Hcross & _ & _).
      rewrite Forall_forall. intros x Hx.
      specialize (Hcross x oj Hx (window_end_in_tail [] oj post)).
      cbn in Hcross. lia.
    + (* the stretch open at [oi] started no later than [oi] *)
      rewrite Hs1.
      assert (Hs : sub32 (if _stabilityStartTime d =? 0 then o_now oi
                          else _stabilityStartTime d) boot <= elapsed boot oi).
      { destruct (Z.eqb_spec (_stabilityStartTime d) 0) as [E|E]; [done|].
        destruct Hinv as [?|Hall]; [done|].
        apply Forall_cons in Hall as [Hall _]. exact Hall. }
      unfold elapsed in *.
      rewrite (sub32_via_boot boot) by lia.
      rewrite (sub32_via_boot boot) in Hlen by lia. lia.
  - cbn [app] in *. rewrite checks_cons.
    apply StronglySorted_cons in Hsort as [Ho Hsort].
    assert (Hoj : elapsed boot o <= elapsed boot oj).
    { rewrite Forall_forall in Ho. apply Ho.
      apply elem_of_app. right. apply elem_of_cons. right.
      apply window_end_in_tail. }
    assert (Ht : sub32 (o_now o) (_bootTime d) <= TOTAL_PROBATION_LIMIT).
    { rewrite Hb. unfold elapsed in Hoj, Hlim. lia. }
    destruct (both_up_dec o) as [Hup|Hdown].
    + destruct (both_up_true o Hup) as [-> ->].
      destruct (check_up_step (o_now o) d Hv Ht) as (d1 & -> & Hb1 & Hs1 & Hv1).
      destruct (_validated d1) eqn:Hvd1; [by rewrite checks_validated|].
      apply IH; auto; try congruence.
      right. rewrite Hs1.
      destruct (Z.eqb_spec (_stabilityStartTime d) 0) as [E|E]; [exact Ho|].
      destruct Hinv as [?|Hall]; [done|].
      apply Forall_cons in Hall as [_ Hall]. exact Hall.
    + destruct (check_down_step (o_now o) (o_wifi o) (o_mqtt o) d Hv Ht
                  (not_both_up o Hdown)) as (d1 & -> & Hb1 & Hs1 & Hv1).
      apply IH; auto; congruence.
Qed.

End OneBoot.

Lemma begin_done_fields now d d0 :
  begin now d = Done tt d0 ->
  _bootTime d0 = now /\ _stabilityStartTime d0 = 0 /\ _validated d0 = false.
Proof.
  intros E.
  destruct (Z_le_gt_dec (int_wrap (Preferences.getInt (prefs d) "boot_count" 0 + 1))
              MAX_CRASH_ATTEMPTS) as [H|H].
  - destruct (begin_counts now d H) as (d' & E' & _ & _ & ? & ? & ? & _).
    rewrite E' in E. by inversion E; subst.
  - destruct (begin_crash_loop now d H) as (d' & E' & _). congruence.
Qed.

(** What makes a single [check] validate. *)
Lemma check_validates_when now w m d :
  _validated d = false ->
  (_validated (final (check now w m d)) = true <->
   w = true /\ m = true /\
   sub32 now (_bootTime d) <= TOTAL_PROBATION_LIMIT /\
   _stabilityStartTime d <> 0 /\
   sub32 now (_stabilityStartTime d) > STABILITY_DURATION).
Proof.
  intros Hv.
  destruct (Z_le_gt_dec (sub32 now (_bootTime d)) TOTAL_PROBATION_LIMIT) as [Ht|Ht].
  2:{ destruct (check_timeout_step now w m d Hv Ht) as (d' & -> & Hv').
      cbn. rewrite Hv'. split; [done|]. lia. }
  destruct (w && m) eqn:Hl.
  - apply andb_true_iff in Hl as [-> ->].
    destruct (check_up_step now d Hv Ht) as (d1 & -> & _ & _ & Hv1).
    cbn [final]. rewrite Hv1.
    destruct (Z.eqb_spec (_stabilityStartTime d) 0) as [E|E].
    + rewrite sub32_self. cbn. split; [done|]. intros (_ & _ & _ & ? & _); done.
    + destruct (Z.gtb_spec (sub32 now (_stabilityStartTime d)) STABILITY_DURATION).
      * split; [|done]. intros _. split_and!; auto. lia.
      * split; [done|]. lia.
  - destruct (check_down_step now w m d Hv Ht Hl) as (d1 & -> & _ & _ & Hv1).
    cbn [final]. rewrite Hv1. split; [done|]. intros (-> & -> & _). done.
Qed.

(** C1, amended.  For a boot whose [begin] returned at clock reading
    [boot], and any run of [check] calls whose time since boot does not go
    backwards: the image is validated during the run if and only if the run
    contains a stretch of consecutive calls, all with both links up, that
    is opened by a call whose clock reading is not 0, spans strictly more
    than STABILITY_DURATION (60000 ms) from its first to its last call, and
    whose last call comes no later than TOTAL_PROBATION_LIMIT after boot.
    Call by call: a [check] on an unvalidated image validates exactly when
    both links are up, the deadline has not passed, a stretch is open and
    now - _stabilityStartTime exceeds STABILITY_DURATION. *)
Theorem validated_iff_stable_window d boot l d0 :
  begin boot (power_on d) = Done tt d0 ->
  monotonic_run boot l ->
  (_validated (final (checks l d0)) = true <-> code_stable_window boot l) /\
  (forall now w m d1,
      _validated d1 = false ->
      (_validated (final (check now w m d1)) = true <->
       w = true /\ m = true /\
       sub32 now (_bootTime d1) <= TOTAL_PROBATION_LIMIT /\
       _stabilityStartTime d1 <> 0 /\
       sub32 now (_stabilityStartTime d1) > STABILITY_DURATION)).
Proof.
  intros Hbegin (_ & _ & Hsort).
  destruct (begin_done_fields _ _ _ Hbegin) as (Hb & Hs & Hv).
  split; [|intros; by apply check_validates_when].
  split.
  - intros Hfin.
    destruct (validated_gives_window boot l d0 Hv Hb Hfin)
      as [(Hne & _) | (pre & oi & mid & oj & post & -> & Hi & Hmid & Hj & Hne & Hlen & Hlim)];
      [congruence|].
    exists oi, oj. split_and!; auto. by exists pre, mid, post.
  - intros (oi & oj & (pre & mid & post & -> & Hi & Hmid & Hj) & Hne & Hlen & Hlim).
    apply (window_validates boot); auto.
Qed.

Lemma validated_iff_stable_window_witness :
  _validated (final (checks [mkObs 2000 true true; mkObs 30000 true true;
                             mkObs 62001 true true]
                       (final (begin 1000 (power_on fresh_device))))) = true.
Proof.
  apply (validated_iff_stable_window fresh_device 1000
           [mkObs 2000 true true; mkObs 30000 true true; mkObs 62001 true true]).
  - vm_compute. reflexivity.
  - repeat split; try done; repeat constructor; vm_compute; congruence.
  - exists (mkObs 2000 true true), (mkObs 62001 true true). split_and!.
    + exists [], [mkObs 30000 true true], []. split_and!; try done.
      repeat constructor.
    + cbn. discriminate.
    + vm_compute. reflexivity.
    + vm_compute. congruence.
Defined.

(** C1, as stated, fails.  Both links up at two consecutive calls exactly
    STABILITY_DURATION apart is a window of the required length, yet
    [check] does not validate: it wants strictly more.  And a window opened
    by a call at clock reading 0 is not seen at all, because 0 marks
    [_stabilityStartTime] as unset. *)
Lemma exact_stability_duration_does_not_validate :
  (let l := [mkObs 2000 true true; mkObs 62000 true true] in
   let d0 := final (begin 1000 (power_on fresh_device)) in
   monotonic_run 1000 l /\
   spec_stable_window 1000 l /\
   _validated (final (checks l d0)) = false) /\
  (let l := [mkObs 0 true true; mkObs 60001 true true] in
   let d0 := final (begin 0 (power_on fresh_device)) in
   monotonic_run 0 l /\
   spec_stable_window 0 l /\
   _validated (final (checks l d0)) = false).
Proof.
  split; cbn zeta.
  - split; [|split].
    + repeat split; try done; repeat constructor; vm_compute; congruence.
    + exists (mkObs 2000 true true), (mkObs 62000 true true).
      split; [by exists [], [], []|]. vm_compute. split; congruence.
    + vm_compute. reflexivity.
  - split; [|split].
    + repeat split; try done; repeat constructor; vm_compute; congruence.
    + exists (mkObs 0 true true), (mkObs 60001 true true).
      split; [by exists [], [], []|]. vm_compute. split; congruence.
    + vm_compute. reflexivity.
Qed.

End Stability.

(** * Further properties of the code *)

(** ** What a boot's checks do to the ledger *)

Section BootRuns.
Import OTADiagnostics.

(** One [check] on an unvalidated image, with everything it touches. *)
Lemma check_outcome now w m d :
  _validated d = false ->
  (exists d',
      check now w m d = Done tt d' /\ _validated d' = false /\
      _bootTime d' = _bootTime d /\ canRollBack d' = canRollBack d /\
      prefs d' = prefs d /\ log d' = log d /\
      sub32 now (_bootTime d) <= TOTAL_PROBATION_LIMIT) \/
  (exists d',
      check now w m d = Done tt d' /\ _validated d' = true /\
      prefs d' = Preferences.putString
                   (Preferences.putInt (Preferences.putInt (prefs d) "boot_count" 0)
                      "last_fail" (reason_code REASON_NONE))
                   "fail_ota_id" EmptyString /\
      log d' = (log d ++ [PutInt "boot_count" 0; PutInt "last_fail" 0;
                          PutString "fail_ota_id" EmptyString])%list /\
      sub32 now (_bootTime d) <= TOTAL_PROBATION_LIMIT) \/
  (exists d' reason,
      check now w m d = Reboot d' /\ _validated d' = false /\
      (reason = REASON_WIFI_TIMEOUT \/ reason = REASON_MQTT_TIMEOUT \/
       reason = REASON_UNSTABLE) /\
      prefs d' = Preferences.putInt
                   (Preferences.putInt (prefs d) "last_fail" (reason_code reason))
                   "boot_count" 0 /\
      log d' = (log d ++ [PutInt "last_fail" (reason_code reason); PutInt "boot_count" 0;
                          PrefsEnd; if canRollBack d then RollBack else Delay 2000;
                          Restart])%list /\
      sub32 now (_bootTime d) > TOTAL_PROBATION_LIMIT).
Proof.
  intros Hv.
  destruct (Z_le_gt_dec (sub32 now (_bootTime d)) TOTAL_PROBATION_LIMIT) as [Ht|Ht].
  - destruct (w && m) eqn:Hl.
    + apply andb_true_iff in Hl as [-> ->]. rewrite check_link_up by done.
      set (s := if _stabilityStartTime d =? 0 then now else _stabilityStartTime d).
      destruct (sub32 now s >? STABILITY_DURATION).
      * right; left.
        destruct (validateFirmware_fresh (with_stabilityStartTime s d))
          as (d' & E & Hv' & Hp & Hl & _); [done|].
        exists d'. by rewrite E, Hv', Hp, Hl.
      * left. eexists. split; [reflexivity|]. by cbn.
    + left. rewrite check_link_down by done. eexists. split; [reflexivity|]. by cbn.
  - right; right. rewrite check_timeout by done.
    set (reason := if negb w then REASON_WIFI_TIMEOUT
                   else if negb m then REASON_MQTT_TIMEOUT else REASON_UNSTABLE).
    destruct (triggerRollback_reboots reason d) as (d' & E & Hp & Hl & Hv').
    exists d', reason. rewrite E, Hp, Hl, Hv', Hv. split_and!; auto.
    subst reason. destruct w, m; cbn; auto.
Qed.

(** A run of [check]s on an unvalidated image, with everything it touches. *)
Lemma checks_run_cases l : forall d,
  _validated d = false ->
  (checks l d = Done tt (final (checks l d)) /\
   _validated (final (checks l d)) = false /\
   prefs (final (checks l d)) = prefs d /\ log (final (checks l d)) = log d) \/
  (checks l d = Done tt (final (checks l d)) /\
   _validated (final (checks l d)) = true /\
   prefs (final (checks l d)) =
     Preferences.putString
       (Preferences.putInt (Preferences.putInt (prefs d) "boot_count" 0)
          "last_fail" (reason_code REASON_NONE))
       "fail_ota_id" EmptyString /\
   log (final (checks l d)) =
     (log d ++ [PutInt "boot_count" 0; PutInt "last_fail" 0;
                PutString "fail_ota_id" EmptyString])%list) \/
  (checks l d = Reboot (final (checks l d)) /\
   _validated (final (checks l d)) = false /\
   exists reason,
     (reason = REASON_WIFI_TIMEOUT \/ reason = REASON_MQTT_TIMEOUT \/
      reason = REASON_UNSTABLE) /\
     prefs (final (checks l d)) =
       Preferences.putInt
         (Preferences.putInt (prefs d) "last_fail" (reason_code reason))
         "boot_count" 0 /\
     log (final (checks l d)) =
       (log d ++ [PutInt "last_fail" (reason_code reason); PutInt "boot_count" 0;
                  PrefsEnd; if canRollBack d then RollBack else Delay 2000;
                  Restart])%list).
Proof.
  induction l as [|o l IH]; intros d Hv.
  { left. by cbn. }
  rewrite checks_cons.
  destruct (check_outcome (o_now o) (o_wifi o) (o_mqtt o) d Hv)
    as [(d1 & E & Hv1 & Hb1 & Hc1 & Hp1 & Hl1 & _)
       | [(d1 & E & Hv1 & Hp1 & Hl1 & _)
         | (d1 & reason & E & Hv1 & Hr & Hp1 & Hl1 & _)]]; rewrite E.
  - specialize (IH d1 Hv1). rewrite Hp1, Hl1, Hc1 in IH. exact IH.
  - right; left. rewrite checks_validated by done. cbn [final]. auto.
  - right; right. cbn [final]. split; [done|]. split; [done|]. by exists reason.
Qed.

(** X1. The checks of one boot write to the ledger at most once.  Starting
    from an unvalidated image, a run of [check] calls ends in exactly one of
    three ways: still on probation, with ledger and log untouched; validated,
    having written "boot_count" = 0, "last_fail" = REASON_NONE and an empty
    "fail_ota_id" and nothing else; or restarted by a timeout rollback, having
    written one of the three timeout reasons and "boot_count" = 0, which
    leaves the pending OTA id in place for the report of the next boot. *)
Theorem checks_outcome l d :
  _validated d = false ->
  let out := checks l d in
  let d' := final out in
  (out = Done tt d' /\ _validated d' = false /\
   prefs d' = prefs d /\ log d' = log d) \/
  (out = Done tt d' /\ _validated d' = true /\
   boot_count d' = 0 /\ last_fail d' = reason_code REASON_NONE /\
   fail_ota_id d' = EmptyString /\
   log d' = (log d ++ [PutInt "boot_count" 0; PutInt "last_fail" 0;
                       PutString "fail_ota_id" EmptyString])%list) \/
  (out = Reboot d' /\ _validated d' = false /\
   exists reason,
     (reason = REASON_WIFI_TIMEOUT \/ reason = REASON_MQTT_TIMEOUT \/
      reason = REASON_UNSTABLE) /\
     boot_count d' = 0 /\ last_fail d' = reason_code reason /\
     fail_ota_id d' = fail_ota_id d /\
     log d' = (log d ++ [PutInt "last_fail" (reason_code reason); PutInt "boot_count" 0;
                         PrefsEnd; if canRollBack d then RollBack else Delay 2000;
                         Restart])%list).
Proof.
  intros Hv. cbn zeta. unfold boot_count, last_fail, fail_ota_id.
  destruct (checks_run_cases l d Hv)
    as [(E & Hv' & Hp & Hl)
       | [(E & Hv' & Hp & Hl)
         | (E & Hv' & reason & Hr & Hp & Hl)]].
  - left. auto.
  - right; left. rewrite Hp, Hl. autorewrite with ledger. auto 10.
  - right; right. split; [done|]. split; [done|]. exists reason.
    rewrite Hp, Hl. autorewrite with ledger. auto 10.
Qed.

Lemma checks_outcome_witness :
  exists d',
    checks [mkObs 2000 true true; mkObs 400000 true false]
           (final (begin 1000 (power_on rolled_back_device))) = Reboot d' /\
    fail_ota_id d' = "33".
Proof.
  destruct (checks_outcome [mkObs 2000 true true; mkObs 400000 true false]
              (final (begin 1000 (power_on rolled_back_device))))
    as [(E & _) | [(E & _) | (E & _ & reason & _ & _ & _ & Hid & _)]].
  - vm_compute. reflexivity.
  - vm_compute in E. discriminate E.
  - vm_compute in E. discriminate E.
  - eexists. split; [exact E|]. rewrite Hid. vm_compute. reflexivity.
Defined.

(** X2. [check] never rolls back before the deadline: if a run of checks on
    an unvalidated image ends in a restart, one of its calls came more than
    TOTAL_PROBATION_LIMIT after boot. *)
Theorem rollback_only_after_deadline l d :
  _validated d = false ->
  rebooted (checks l d) = true ->
  Exists (fun o => elapsed (_bootTime d) o > TOTAL_PROBATION_LIMIT) l.
Proof.
  revert d. induction l as [|o l IH]; intros d Hv Hr; [discriminate Hr|].
  rewrite checks_cons in Hr.
  destruct (check_outcome (o_now o) (o_wifi o) (o_mqtt o) d Hv)
    as [(d1 & E & Hv1 & Hb1 & _)
       | [(d1 & E & Hv1 & _)
         | (d1 & reason & E & _ & _ & _ & _ & Ht)]]; rewrite E in Hr.
  - apply Exists_cons_tl. rewrite <- Hb1. by apply IH.
  - rewrite checks_validated in Hr by done. discriminate Hr.
  - by apply Exists_cons_hd.
Qed.

Lemma rollback_only_after_deadline_witness :
  Exists (fun o => elapsed 1000 o > TOTAL_PROBATION_LIMIT)
         [mkObs 2000 true true; mkObs 400000 true false].
Proof.
  apply (rollback_only_after_deadline [mkObs 2000 true true; mkObs 400000 true false]
           (final (begin 1000 (power_on fresh_device)))).
  - vm_compute. reflexivity.
  - vm_compute. reflexivity.
Defined.

(** X3. No image stays on probation past the deadline: if some [check] of a
    run comes more than TOTAL_PROBATION_LIMIT after boot, the run ends with
    the image validated (before that call) or with a restart. *)
Theorem deadline_ends_probation l d :
  _validated d = false ->
  Exists (fun o => elapsed (_bootTime d) o > TOTAL_PROBATION_LIMIT) l ->
  _validated (final (checks l d)) = true \/ rebooted (checks l d) = true.
Proof.
  revert d. induction l as [|o l IH]; intros d Hv Hex; [by inversion Hex|].
  rewrite checks_cons.
  destruct (check_outcome (o_now o) (o_wifi o) (o_mqtt o) d Hv)
    as [(d1 & E & Hv1 & Hb1 & _ & _ & _ & Ht)
       | [(d1 & E & Hv1 & _)
         | (d1 & reason & E & _)]]; rewrite E.
  - apply Exists_cons in Hex as [Hex|Hex].
    + unfold elapsed in Hex. lia.
    + apply IH; [done|]. by rewrite Hb1.
  - left. by rewrite checks_validated.
  - by right.
Qed.

Lemma deadline_ends_probation_witness :
  _validated (final (checks [mkObs 2000 false false; mkObs 301001 true true]
                       (final (begin 1000 (power_on fresh_device))))) = true \/
  rebooted (checks [mkObs 2000 false false; mkObs 301001 true true]
              (final (begin 1000 (power_on fresh_device)))) = true.
Proof.
  apply (deadline_ends_probation [mkObs 2000 false false; mkObs 301001 true true]
           (final (begin 1000 (power_on fresh_device)))).
  - vm_compute. reflexivity.
  - apply Exists_cons_tl, Exists_cons_hd. vm_compute. reflexivity.
Defined.

(** X4. Validation and rollback both restart the crash count: after a run of
    checks that ended with the image validated or with a timeout rollback,
    [begin] on the next boot persists "boot_count" = 1 and does not roll
    back. *)
Theorem next_boot_counts_from_one l d now :
  _validated d = false ->
  _validated (final (checks l d)) = true \/ rebooted (checks l d) = true ->
  exists d2,
    begin now (power_on (final (checks l d))) = Done tt d2 /\
    boot_count d2 = 1 /\
    log d2 = [PutInt "boot_count" 1].
Proof.
  intros Hv Hend.
  assert (H0 : boot_count (final (checks l d)) = 0).
  { unfold boot_count.
    destruct (checks_run_cases l d Hv)
      as [(E & Hv' & _) | [(_ & _ & Hp & _) | (_ & _ & r & _ & Hp & _)]].
    - destruct Hend as [Hend|Hend]; [congruence|]. rewrite E in Hend. discriminate Hend.
    - rewrite Hp. by autorewrite with ledger.
    - rewrite Hp. by autorewrite with ledger. }
  destruct (begin_counts now (power_on (final (checks l d)))) as (d2 & E & Hp & Hl & _).
  { cbn. fold (boot_count (final (checks l d))). rewrite H0. by vm_compute. }
  exists d2. split; [done|]. unfold boot_count in *. rewrite Hp, Hl. cbn.
  rewrite H0. autorewrite with ledger. done.
Qed.

Lemma next_boot_counts_from_one_witness :
  exists d2,
    begin 90 (power_on (final (checks [mkObs 2000 true true; mkObs 62001 true true]
                                 (final (begin 1000 (power_on third_boot_device))))))
      = Done tt d2 /\
    boot_count d2 = 1.
Proof.
  destruct (next_boot_counts_from_one [mkObs 2000 true true; mkObs 62001 true true]
              (final (begin 1000 (power_on third_boot_device))) 90)
    as (d2 & E & Hb & _).
  - vm_compute. reflexivity.
  - left. vm_compute. reflexivity.
  - exists d2. split; [exact E | exact Hb].
Defined.

End BootRuns.

(** ** From a rollback to its report *)

Section UpdateCycle.
Import OTADiagnostics.

Lemma begin_below_threshold now d :
  boot_count d = 0 ->
  exists d',
    begin now d = Done tt d' /\
    prefs d' = Preferences.putInt (prefs d) "boot_count" 1 /\
    log d' = (log d ++ [PutInt "boot_count" 1])%list /\
    reportSent d' = reportSent d /\ _validated d' = false /\ _bootTime d' = now.
Proof.
  unfold boot_count. intros H0. unfold begin. run. rewrite H0.
  change (int_wrap (0 + 1)) with 1. cbn.
  eexists. split; [reflexivity|]. by cbn.
Qed.

Lemma reportRollback_publishes env d :
  reportSent d = false ->
  last_fail d <> reason_code REASON_NONE ->
  client_publish env status_topic
    (failure_payload (reasonStr_of (last_fail d)) (fail_ota_id d)) = true ->
  exists d',
    reportRollback env d = Done tt d' /\
    reportSent d' = true /\
    prefs d' = Preferences.putString
                 (Preferences.putInt (prefs d) "last_fail" (reason_code REASON_NONE))
                 "fail_ota_id" EmptyString /\
    log d' = (log d ++ [Publish status_topic
                          (failure_payload (reasonStr_of (last_fail d)) (fail_ota_id d))
                          true;
                        PutInt "last_fail" 0;
                        PutString "fail_ota_id" EmptyString])%list.
Proof.
  intros Hs Hf Hpub.
  unfold reportRollback, getLastFailureReason, getFailedOTAId,
    prefs_getInt, prefs_getString, bind, gets, ret.
  rewrite Hs.
  change (Preferences.getInt (prefs d) "last_fail" (reason_code REASON_NONE))
    with (last_fail d).
  destruct (Z.eqb_spec (last_fail d) (reason_code REASON_NONE)); [done|].
  cbn [negb].
  change (Preferences.getString (prefs d) "fail_ota_id" EmptyString)
    with (fail_ota_id d).
  unfold emit, modify. cbn beta iota. rewrite Hpub.
  match goal with |- context [clearFailure ?x] =>
    destruct (clearFailure_effect x) as (d' & Ec & Hpr & Hl & _) end.
  rewrite Ec. eexists. split; [reflexivity|]. cbn.
  rewrite Hpr, Hl. cbn. rewrite <- app_assoc. auto.
Qed.

(** X5. What a rollback stores is what the next boot reports.  After
    [triggerRollback(reason)], on the next boot [begin] counts 1 and does not
    roll back, and the first [reportRollback] whose publish succeeds sends
    the reason string of [reason] together with the OTA id that was pending
    at the rollback, then clears both from the ledger.  Nothing else is
    written or published on the way. *)
Theorem rollback_is_reported_next_boot reason d env now :
  reason <> REASON_NONE ->
  (forall payload, client_publish env status_topic payload = true) ->
  let name := match reason with
              | REASON_NONE => "unknown"
              | REASON_CRASH_LOOP => "runtime_error_crash"
              | REASON_WIFI_TIMEOUT => "wifi_timeout"
              | REASON_MQTT_TIMEOUT => "mqtt_timeout"
              | REASON_UNSTABLE => "connection_unstable"
              | REASON_NTP_FAILURE => "ntp_time_sync_failed"
              end in
  exists d1 d2 d3,
    triggerRollback reason d = Reboot d1 /\
    begin now (power_on d1) = Done tt d2 /\
    reportRollback env d2 = Done tt d3 /\
    log d3 = [PutInt "boot_count" 1;
              Publish status_topic (failure_payload name (fail_ota_id d)) true;
              PutInt "last_fail" 0;
              PutString "fail_ota_id" EmptyString] /\
    last_fail d3 = reason_code REASON_NONE /\
    fail_ota_id d3 = EmptyString /\
    boot_count d3 = 1.
Proof.
  intros Hne Hpub name.
  destruct (triggerRollback_reboots reason d) as (d1 & E1 & Hp1 & _).
  destruct (begin_below_threshold now (power_on d1)) as (d2 & E2 & Hp2 & Hl2 & Hs2 & _).
  { unfold boot_count. cbn. rewrite Hp1. by autorewrite with ledger. }
  assert (Hf2 : last_fail d2 = reason_code reason).
  { unfold last_fail. rewrite Hp2. cbn. rewrite Hp1. by autorewrite with ledger. }
  assert (Hi2 : fail_ota_id d2 = fail_ota_id d).
  { unfold fail_ota_id. rewrite Hp2. cbn. rewrite Hp1. by autorewrite with ledger. }
  destruct (reportRollback_publishes env d2) as (d3 & E3 & _ & Hp3 & Hl3).
  { by rewrite Hs2. }
  { rewrite Hf2. by destruct reason. }
  { apply Hpub. }
  exists d1, d2, d3. split_and!; try done.
  - rewrite Hl3, Hl2, Hf2, Hi2. cbn. by destruct reason.
  - unfold last_fail. rewrite Hp3. by autorewrite with ledger.
  - unfold fail_ota_id. rewrite Hp3. by autorewrite with ledger.
  - unfold boot_count. rewrite Hp3, Hp2. by autorewrite with ledger.
Qed.

Lemma rollback_is_reported_next_boot_witness :
  exists d3,
    reportRollback (connect_env true)
      (final (begin 80 (power_on (final (triggerRollback REASON_UNSTABLE
                                           rolled_back_device))))) = Done tt d3 /\
    log d3 = [PutInt "boot_count" 1;
              Publish status_topic (failure_payload "connection_unstable" "33") true;
              PutInt "last_fail" 0;
              PutString "fail_ota_id" EmptyString].
Proof.
  destruct (rollback_is_reported_next_boot REASON_UNSTABLE rolled_back_device
              (connect_env true) 80) as (d1 & d2 & d3 & E1 & E2 & E3 & Hl & _).
  - discriminate.
  - reflexivity.
  - exists d3. rewrite E1. cbn [final]. rewrite E2. cbn [final]. split; [exact E3|].
    rewrite Hl. vm_compute. reflexivity.
Defined.

(** The connect path never restarts the device and never touches the
    probation state. *)
Lemma reportRollback_keeps_probation env d :
  exists d',
    reportRollback env d = Done tt d' /\
    _validated d' = _validated d /\ _bootTime d' = _bootTime d /\
    _stabilityStartTime d' = _stabilityStartTime d /\ canRollBack d' = canRollBack d.
Proof.
  unfold reportRollback, getLastFailureReason, getFailedOTAId, clearFailure,
    prefs_getInt, prefs_getString, prefs_putInt, prefs_putString,
    bind, gets, ret, emit, modify.
  destruct (reportSent d); [by eexists|].
  destruct (negb _); [|by eexists].
  destruct (client_publish env _ _); eexists; (split; [reflexivity|]); by cbn.
Qed.

Lemma connectPSK_keeps_probation env now d :
  exists d',
    connectPSK env now d = Done tt d' /\
    _validated d' = _validated d /\ _bootTime d' = _bootTime d /\
    _stabilityStartTime d' = _stabilityStartTime d /\ canRollBack d' = canRollBack d.
Proof.
  unfold connectPSK, bind, gets, ret, modify.
  destruct (client_connected env); [by eexists|].
  destruct (_ >? _); [|by eexists].
  destruct (WiFi_connected env); [|by eexists].
  destruct (client_connect env); [|by eexists].
  destruct (reportRollback_keeps_probation env (with_lastReconnectAttempt now d))
    as (d' & E & H). exists d'. by rewrite E.
Qed.

(** With no failure stored, the connect path leaves ledger and log alone. *)
Lemma connectPSK_nothing_pending env now d :
  last_fail d = reason_code REASON_NONE ->
  exists d',
    connectPSK env now d = Done tt d' /\
    prefs d' = prefs d /\ log d' = log d /\
    _validated d' = _validated d /\ _bootTime d' = _bootTime d /\
    canRollBack d' = canRollBack d.
Proof.
  intros Hn. unfold connectPSK, bind, gets, ret, modify.
  destruct (client_connected env); [by eexists|].
  destruct (_ >? _); [|by eexists].
  destruct (WiFi_connected env); [|by eexists].
  destruct (client_connect env); [|by eexists].
  rewrite reportRollback_nothing_pending by done. by eexists.
Qed.

Lemma loops_cons env now_check now_connect turns d :
  loops ((env, now_check, now_connect) :: turns) d =
    match check now_check (WiFi_connected env) (client_connected env) d with
    | Done _ d1 =>
      match connectPSK env now_connect d1 with
      | Done _ d2 => loops turns d2
      | Reboot d2 => Reboot d2
      end
    | Reboot d1 => Reboot d1
    end.
Proof.
  cbn [loops]. unfold bind at 1. unfold loop, bind.
  by destruct (check now_check (WiFi_connected env) (client_connected env) d) as [[] d1|d1].
Qed.

(** Once the image is validated, no turn of [loop()] restarts the device. *)
Lemma loops_validated turns : forall d,
  _validated d = true -> rebooted (loops turns d) = false.
Proof.
  induction turns as [|[[env n1] n2] turns IH]; intros d Hv; [done|].
  rewrite loops_cons, check_validated by done.
  destruct (connectPSK_keeps_probation env n2 d) as (d' & -> & Hv' & _).
  apply IH. congruence.
Qed.

(** Turns of [loop()] on an image on probation with no failure stored: if
    they end in a restart, it is a timeout rollback on the ledger the boot
    started with. *)
Lemma loops_reboot_ledger turns : forall d d2,
  _validated d = false ->
  last_fail d = reason_code REASON_NONE ->
  loops turns d = Reboot d2 ->
  exists reason,
    (reason = REASON_WIFI_TIMEOUT \/ reason = REASON_MQTT_TIMEOUT \/
     reason = REASON_UNSTABLE) /\
    prefs d2 = Preferences.putInt
                 (Preferences.putInt (prefs d) "last_fail" (reason_code reason))
                 "boot_count" 0.
Proof.
  induction turns as [|[[env n1] n2] turns IH]; intros d d2 Hv Hn Hrun; [discriminate|].
  rewrite loops_cons in Hrun.
  destruct (check_outcome n1 (WiFi_connected env) (client_connected env) d Hv)
    as [(d1 & E & Hv1 & _ & _ & Hp1 & _)
       | [(d1 & E & Hv1 & _)
         | (d1 & reason & E & _ & Hr & Hp1 & _)]]; rewrite E in Hrun.
  - destruct (connectPSK_nothing_pending env n2 d1) as (d1' & E' & Hp' & _ & Hv' & _).
    { unfold last_fail in *. by rewrite Hp1. }
    rewrite E' in Hrun.
    destruct (IH d1' d2) as (reason & Hr & Hp2); [congruence| |done|].
    { unfold last_fail in *. by rewrite Hp', Hp1. }
    exists reason. by rewrite Hp2, Hp', Hp1.
  - destruct (connectPSK_keeps_probation env n2 d1) as (d1' & E' & Hv' & _).
    rewrite E' in Hrun.
    pose proof (loops_validated turns d1' ltac:(congruence)) as Hnr.
    rewrite Hrun in Hnr. discriminate Hnr.
  - inversion Hrun; subst d1. by exists reason.
Qed.

(** [setup()] once [begin] has returned. *)
Lemma setup_after_begin now wifi_ok ntp_ok d dB :
  begin now d = Done tt dB ->
  setup now wifi_ok ntp_ok d =
    if negb wifi_ok then triggerRollback REASON_WIFI_TIMEOUT dB
    else if negb ntp_ok then triggerRollback REASON_NTP_FAILURE dB
    else Done tt dB.
Proof.
  intros E. unfold setup, bind. rewrite E.
  destruct wifi_ok; cbn [negb].
  - unfold ret at 1. by destruct ntp_ok.
  - destruct (triggerRollback_reboots REASON_WIFI_TIMEOUT dB) as (d' & -> & _). done.
Qed.

(** The ways [setup()] can end, on the ledger. *)
Lemma setup_ledger now wifi_ok ntp_ok d :
  (exists dB,
      setup now wifi_ok ntp_ok d = Done tt dB /\ _validated dB = false /\
      exists boots, prefs dB = Preferences.putInt (prefs d) "boot_count" boots) \/
  (exists d' boots reason,
      setup now wifi_ok ntp_ok d = Reboot d' /\
      (reason = REASON_CRASH_LOOP \/ reason = REASON_WIFI_TIMEOUT \/
       reason = REASON_NTP_FAILURE) /\
      prefs d' = Preferences.putInt
                   (Preferences.putInt
                      (Preferences.putInt (prefs d) "boot_count" boots)
                      "last_fail" (reason_code reason))
                   "boot_count" 0).
Proof.
  destruct (Z_le_gt_dec (int_wrap (Preferences.getInt (prefs d) "boot_count" 0 + 1))
              MAX_CRASH_ATTEMPTS) as [Hle|Hgt].
  - destruct (begin_counts now d Hle) as (dB & E & Hp & _ & _ & _ & Hv & _).
    rewrite (setup_after_begin _ _ _ _ _ E).
    destruct wifi_ok; cbn [negb]; [destruct ntp_ok; cbn [negb]|].
    + left. exists dB. split_and!; [done|done|by eexists].
    + right. destruct (triggerRollback_reboots REASON_NTP_FAILURE dB) as (d' & -> & Hp' & _).
      eexists d', _, REASON_NTP_FAILURE. split_and!; [done|auto|by rewrite Hp', Hp].
    + right. destruct (triggerRollback_reboots REASON_WIFI_TIMEOUT dB) as (d' & -> & Hp' & _).
      eexists d', _, REASON_WIFI_TIMEOUT. split_and!; [done|auto|by rewrite Hp', Hp].
  - right. destruct (begin_crash_loop now d Hgt) as (d' & E & Hp & _).
    unfold setup, bind. rewrite E.
    eexists d', _, REASON_CRASH_LOOP. split_and!; [done|auto|exact Hp].
Qed.

(** X6. An update that is rolled back is reported with its own id.  Take
    an update with id [otaId] installed by [handleOTAUpdate] while no failure
    reason was stored.  If the boot of the new image, that is [setup()]
    followed by any number of turns of [loop()] in which no further message
    is delivered, ends in a rollback (crash loop, WiFi wait, time sync or a
    probation timeout), then the ledger holds that rollback's reason and still
    [otaId]; the boot after that counts 1, and its first successful
    [reportRollback] publishes the failure with that reason and [otaId]. *)
Theorem rolled_back_update_is_reported
    env payload doc otaUrl otaId d now2 wifi_ok ntp_ok turns d2 now3 env3 :
  deserializeJson env payload = Some doc ->
  as_cstr doc "otaUrl" = Some otaUrl ->
  as_cstr doc "otaId" = Some otaId ->
  httpUpdate_update env otaUrl = HTTP_UPDATE_OK ->
  last_fail d = reason_code REASON_NONE ->
  (setup now2 wifi_ok ntp_ok ;; loops turns)
    (power_on (final (handleOTAUpdate env payload d))) = Reboot d2 ->
  (forall pl, client_publish env3 status_topic pl = true) ->
  exists reason d3 d4,
    reason <> REASON_NONE /\
    last_fail d2 = reason_code reason /\
    fail_ota_id d2 = otaId /\
    begin now3 (power_on d2) = Done tt d3 /\
    reportRollback env3 d3 = Done tt d4 /\
    log d4 = [PutInt "boot_count" 1;
              Publish status_topic
                (failure_payload (reasonStr_of (reason_code reason)) otaId) true;
              PutInt "last_fail" 0;
              PutString "fail_ota_id" EmptyString].
Proof.
  intros H1 H2 H3 H4 Hnone Hrun Hpub.
  destruct (handleOTAUpdate_ok env payload doc otaUrl otaId d H1 H2 H3 H4)
    as (d1 & E1 & _ & Hp1).
  rewrite E1 in Hrun. cbn [final] in Hrun.
  (* the boot of the new image *)
  assert (Hd2 : exists reason,
             reason <> REASON_NONE /\
             last_fail d2 = reason_code reason /\ fail_ota_id d2 = otaId /\
             boot_count d2 = 0).
  { unfold bind in Hrun. unfold last_fail, fail_ota_id, boot_count in *.
    destruct (setup_ledger now2 wifi_ok ntp_ok (power_on d1))
      as [(dB & EB & HvB & boots & HpB)
         | (d' & boots & reason & EB & Hr & Hp')]; rewrite EB in Hrun.
    - cbn [power_on prefs] in HpB.
      destruct (loops_reboot_ledger turns dB d2 HvB) as (reason & Hr & Hp2); [|done|].
      { unfold last_fail. rewrite HpB, Hp1. by autorewrite with ledger. }
      exists reason. rewrite Hp2, HpB, Hp1. autorewrite with ledger.
      split_and!; auto. destruct Hr as [-> | [-> | ->]]; discriminate.
    - inversion Hrun; subst d'. cbn [power_on prefs] in Hp'.
      exists reason. rewrite Hp', Hp1. autorewrite with ledger.
      split_and!; auto. destruct Hr as [-> | [-> | ->]]; discriminate. }
  destruct Hd2 as (reason & Hr & Hf2 & Hi2 & Hb2).
  (* the boot that reports *)
  destruct (begin_below_threshold now3 (power_on d2)) as (d3 & E3 & Hp3 & Hl3 & Hs3 & _).
  { exact Hb2. }
  assert (Hf3 : last_fail d3 = reason_code reason).
  { unfold last_fail in *. rewrite Hp3. cbn [power_on prefs].
    by autorewrite with ledger. }
  assert (Hi3 : fail_ota_id d3 = otaId).
  { unfold fail_ota_id in *. rewrite Hp3. cbn [power_on prefs].
    by autorewrite with ledger. }
  destruct (reportRollback_publishes env3 d3) as (d4 & E4 & _ & _ & Hl4).
  { by rewrite Hs3. }
  { rewrite Hf3. by destruct reason. }
  { apply Hpub. }
  exists reason, d3, d4. split_and!; try done.
  rewrite Hl4, Hl3, Hf3, Hi3. done.
Qed.

Lemma rolled_back_update_is_reported_witness :
  exists d4,
    log d4 = [PutInt "boot_count" 1;
              Publish status_topic (failure_payload "mqtt_timeout" "33") true;
              PutInt "last_fail" 0;
              PutString "fail_ota_id" EmptyString].
Proof.
  destruct (rolled_back_update_is_reported (sample_env true HTTP_UPDATE_OK)
              msg33 doc33 sample_url "33" fresh_device
              100 true true flapping_turns
              (final ((setup 100 true true ;; loops flapping_turns)
                        (power_on (final (handleOTAUpdate (sample_env true HTTP_UPDATE_OK)
                                            msg33 fresh_device)))))
              70 (connect_env true))
    as (reason & d3 & d4 & _ & Hf & _ & _ & _ & Hl).
  - vm_compute. reflexivity.
  - vm_compute. reflexivity.
  - vm_compute. reflexivity.
  - reflexivity.
  - vm_compute. reflexivity.
  - vm_compute. reflexivity.
  - reflexivity.
  - exists d4. rewrite Hl.
    assert (Hc : reason_code reason = 3).
    { rewrite <- Hf. vm_compute. reflexivity. }
    rewrite Hc. vm_compute. reflexivity.
Defined.

(** X7. [handleOTAUpdate] never starts a download it has not recorded, and
    never acts on a broken instruction.  Either the payload does not parse,
    or "otaUrl" or "otaId" is missing or not a string, and then nothing at
    all changes; or the OTA id is persisted first, the download from "otaUrl"
    comes right after it and is the only one, and the device restarts exactly
    when the update reports HTTP_UPDATE_OK. *)
Theorem update_is_recorded_before_download env payload d :
  let out := handleOTAUpdate env payload d in
  ((deserializeJson env payload = None \/
    exists doc, deserializeJson env payload = Some doc /\
                (as_cstr doc "otaUrl" = None \/ as_cstr doc "otaId" = None)) /\
   out = Done tt d) \/
  (exists doc otaUrl otaId rest,
      deserializeJson env payload = Some doc /\
      as_cstr doc "otaUrl" = Some otaUrl /\
      as_cstr doc "otaId" = Some otaId /\
      log (final out) =
        (log d ++ PutString "fail_ota_id" otaId :: HttpUpdate otaUrl :: rest)%list /\
      (forall url, ~ In (HttpUpdate url) rest) /\
      (rebooted out = true <-> httpUpdate_update env otaUrl = HTTP_UPDATE_OK)).
Proof.
  cbn zeta.
  destruct (deserializeJson env payload) as [doc|] eqn:H1.
  2:{ left. split; [by left|]. unfold handleOTAUpdate. by rewrite H1. }
  destruct (as_cstr doc "otaUrl") as [otaUrl|] eqn:H2.
  2:{ left. split; [right; exists doc; auto|].
      unfold handleOTAUpdate. rewrite H1. cbn zeta. by rewrite H2. }
  destruct (as_cstr doc "otaId") as [otaId|] eqn:H3.
  2:{ left. split; [right; exists doc; auto|].
      unfold handleOTAUpdate. rewrite H1. cbn zeta. by rewrite H2, H3. }
  right.
  assert (Hev : forall status url rest',
             (forall url', ~ In (HttpUpdate url') rest') ->
             ~ In (HttpUpdate url) (status_events env status otaId ++ rest')).
  { intros status url rest' Hrest Hin. apply in_app_or in Hin as [Hin|Hin].
    - unfold status_events in Hin. destruct (client_connected env); cbn in Hin;
        [destruct Hin as [Hin|[]]; discriminate Hin | done].
    - by apply (Hrest url). }
  destruct (httpUpdate_update env otaUrl) eqn:H4.
  - destruct (handleOTAUpdate_failed env payload doc otaUrl otaId d H1 H2 H3)
      as (d' & E & Hl & _); [by rewrite H4|].
    eexists doc, otaUrl, otaId, _. rewrite E. cbn [final rebooted].
    split; [done|]. split; [done|]. split; [done|]. split; [exact Hl|].
    split; [|split; intros Hx; [discriminate Hx | rewrite H4 in Hx; discriminate Hx]].
    intros url. apply Hev. intros url' Hin. cbn in Hin.
    destruct Hin as [Hin|[Hin|[]]]; discriminate Hin.
  - destruct (handleOTAUpdate_failed env payload doc otaUrl otaId d H1 H2 H3)
      as (d' & E & Hl & _); [by rewrite H4|].
    eexists doc, otaUrl, otaId, _. rewrite E. cbn [final rebooted].
    split; [done|]. split; [done|]. split; [done|]. split; [exact Hl|].
    split; [|split; intros Hx; [discriminate Hx | rewrite H4 in Hx; discriminate Hx]].
    intros url. apply Hev. intros url' Hin. cbn in Hin.
    destruct Hin as [Hin|[Hin|[]]]; discriminate Hin.
  - destruct (handleOTAUpdate_ok env payload doc otaUrl otaId d H1 H2 H3 H4)
      as (d' & E & Hl & _).
    eexists doc, otaUrl, otaId, _. rewrite E. cbn [final rebooted].
    split; [done|]. split; [done|]. split; [done|]. split; [exact Hl|].
    split; [|done].
    intros url. apply Hev. intros url' Hin. cbn in Hin.
    destruct Hin as [Hin|[Hin|[]]]; discriminate Hin.
Qed.

(** X8. The report names the reason without ambiguity: the stored codes 1
    to 5 give five different reason strings, none of them "unknown", and
    every other stored code gives "unknown". *)
Theorem reason_strings_distinguish c1 c2 :
  (reasonStr_of c1 = "unknown" <-> ~ (1 <= c1 <= 5)) /\
  (1 <= c1 <= 5 -> reasonStr_of c1 = reasonStr_of c2 -> c1 = c2).
Proof.
  assert (Hout : forall c, ~ (1 <= c <= 5) -> reasonStr_of c = "unknown").
  { intros c Hc. unfold reasonStr_of. cbn [reason_code].
    destruct (Z.eqb_spec c 1); [lia|]. destruct (Z.eqb_spec c 2); [lia|].
    destruct (Z.eqb_spec c 3); [lia|]. destruct (Z.eqb_spec c 4); [lia|].
    destruct (Z.eqb_spec c 5); [lia|]. done. }
  assert (Hin : forall c, 1 <= c <= 5 ->
                  c = 1 \/ c = 2 \/ c = 3 \/ c = 4 \/ c = 5) by (intros; lia).
  split.
  - split.
    + intros Hu Hc. destruct (Hin c1 Hc) as [->|[-> | [-> | [-> | ->]]]]; discriminate Hu.
    + apply Hout.
  - intros Hc Heq.
    destruct (Z_le_gt_dec 1 c2) as [Hl|Hl]; [destruct (Z_le_gt_dec c2 5) as [Hu|Hu]|].
    + destruct (Hin c1 Hc) as [->|[-> | [-> | [-> | ->]]]];
        destruct (Hin c2 ltac:(lia)) as [->|[-> | [-> | [-> | ->]]]];
        try reflexivity; discriminate Heq.
    + rewrite (Hout c2) in Heq by lia.
      destruct (Hin c1 Hc) as [->|[-> | [-> | [-> | ->]]]]; discriminate Heq.
    + rewrite (Hout c2) in Heq by lia.
      destruct (Hin c1 Hc) as [->|[-> | [-> | [-> | ->]]]]; discriminate Heq.
Qed.

End UpdateCycle.

(** ** The start-up waits *)

Section StartUp.
Import OTADiagnostics.

(** More readings do not change a wait that has already returned. *)
Lemma connectWifi_more_polls start polls more r :
  connectWifi start polls = Some r -> connectWifi start (polls ++ more) = Some r.
Proof.
  induction polls as [|[connected now] polls IH]; [discriminate|].
  cbn. destruct connected; cbn; [done|]. by destruct (_ >? _).
Qed.

Lemma SyncTime_more_polls start polls more r :
  SyncTime start polls = Some r -> SyncTime start (polls ++ more) = Some r.
Proof.
  induction polls as [|[time now] polls IH]; [discriminate|].
  cbn. destruct (time <? 1000000000); [|done]. by destruct (_ >? _).
Qed.

(** X9. What the answer of [connectWifi] means.  It returns true exactly
    when some poll finds the station connected, and false exactly when some
    poll finds it not connected more than 15000 ms after the start; in both
    cases every earlier poll found it not connected and within the 15000 ms.
    So a connection that comes up late is still accepted if no poll saw the
    budget exceeded before. *)
Theorem connectWifi_result start polls r :
  connectWifi start polls = Some r <->
  exists k connected now,
    polls !! k = Some (connected, now) /\
    (forall j p, (j < k)%nat -> polls !! j = Some p ->
                 fst p = false /\ sub32 (snd p) start <= 15000) /\
    (if r then connected = true
     else connected = false /\ sub32 now start > 15000).
Proof.
  split.
  - induction polls as [|[connected now] polls IH]; [discriminate|].
    cbn. destruct connected; cbn.
    + intros [= <-]. exists 0%nat, true, now. split_and!; [done| |done].
      intros j p Hj. lia.
    + destruct (Z.gtb_spec (sub32 now start) 15000) as [Hgt|Hle].
      * intros [= <-]. exists 0%nat, false, now. split_and!; [done| |done|lia].
        intros j p Hj. lia.
      * intros H. destruct (IH H) as (k & c & n & Hk & Hbefore & Hr).
        exists (S k), c, n. split_and!; [done| |done].
        intros [|j] p Hj Hp.
        -- cbn in Hp. injection Hp as <-. cbn. split; [done|lia].
        -- apply (Hbefore j); [lia|done].
  - intros (k & connected & now & Hk & Hbefore & Hr).
    revert polls Hk Hbefore. induction k as [|k IH]; intros polls Hk Hbefore.
    + destruct polls as [|[c n] polls]; [done|]. cbn in Hk. injection Hk as -> ->.
      cbn. destruct r.
      * by rewrite Hr.
      * destruct Hr as [-> Hgt]. cbn.
        destruct (Z.gtb_spec (sub32 now start) 15000); [done|lia].
    + destruct polls as [|[c n] polls]; [done|]. cbn in Hk.
      destruct (Hbefore 0%nat (c, n) ltac:(lia) eq_refl) as [Hc Hn]. cbn in Hc, Hn.
      subst c. cbn.
      destruct (Z.gtb_spec (sub32 n start) 15000); [lia|].
      apply IH; [done|]. intros j p Hj Hp. apply (Hbefore (S j)); [lia|done].
Qed.

Lemma connectWifi_result_witness :
  exists k connected now,
    [(false, 600); (false, 1100); (true, 1600)] !! k = Some (connected, now) /\
    connected = true.
Proof.
  destruct (proj1 (connectWifi_result 100 [(false, 600); (false, 1100); (true, 1600)] true))
    as (k & connected & now & Hk & _ & Hr).
  - vm_compute. reflexivity.
  - exists k, connected, now. split; [exact Hk | exact Hr].
Defined.

Lemma connectWifi_bounded_from start polls : forall n,
  (forall k p, polls !! k = Some p ->
               500 * (Z.of_nat n + Z.of_nat k) <= sub32 (snd p) start) ->
  (n <= 31)%nat ->
  (32 - n <= length polls)%nat ->
  exists r, connectWifi start (take (32 - n) polls) = Some r.
Proof.
  induction polls as [|[connected now] polls IH]; intros n Hclock Hn Hlen.
  { cbn in Hlen. lia. }
  replace (32 - n)%nat with (S (31 - n)) by lia. cbn [take connectWifi].
  destruct connected; cbn; [by eexists|].
  destruct (Z.gtb_spec (sub32 now start) 15000) as [Hgt|Hle]; [by eexists|].
  specialize (Hclock 0%nat (false, now) eq_refl) as H0. cbn in H0.
  assert (n <= 30)%nat by lia.
  replace (31 - n)%nat with (32 - S n)%nat by lia.
  apply IH; [|lia|cbn in Hlen; lia].
  intros k p Hp. specialize (Hclock (S k) p Hp). lia.
Qed.

(** X10. [connectWifi] gives up in time.  If each pass through the loop
    body reads a clock that has advanced by at least the 500 ms of its
    [delay(500)], the function has returned by its 32nd poll, whatever the
    station does. *)
Theorem connectWifi_returns_within_32_polls start polls :
  (forall k p, polls !! k = Some p -> 500 * Z.of_nat k <= sub32 (snd p) start) ->
  (32 <= length polls)%nat ->
  exists r,
    connectWifi start (take 32 polls) = Some r /\
    connectWifi start polls = Some r.
Proof.
  intros Hclock Hlen.
  destruct (connectWifi_bounded_from start polls 0) as (r & Hr); [|lia|lia|].
  { intros k p Hp. specialize (Hclock k p Hp). lia. }
  exists r. split; [exact Hr|].
  rewrite <- (take_drop 32 polls). by apply connectWifi_more_polls.
Qed.

Lemma connectWifi_returns_within_32_polls_witness :
  exists r, connectWifi 100 no_wifi_polls = Some r.
Proof.
  destruct (connectWifi_returns_within_32_polls 100 no_wifi_polls) as (r & _ & Hr).
  - intros k p Hp. unfold no_wifi_polls in Hp.
    rewrite list_lookup_fmap in Hp.
    destruct (seq 0 32 !! k) as [i|] eqn:Hi; [|discriminate Hp].
    apply lookup_seq in Hi as [-> Hlt]. cbn in Hp. injection Hp as <-. cbn [snd].
    unfold sub32, two32. replace (100 + 500 * Z.of_nat k - 100) with (500 * Z.of_nat k) by lia.
    rewrite Z.mod_small; lia.
  - vm_compute. lia.
  - exists r. exact Hr.
Defined.

Lemma SyncTime_bounded_from start polls : forall n,
  (forall k p, polls !! k = Some p ->
               500 * (Z.of_nat n + Z.of_nat k) <= sub32 (snd p) start) ->
  (n <= 41)%nat ->
  (42 - n <= length polls)%nat ->
  exists r, SyncTime start (take (42 - n) polls) = Some r.
Proof.
  induction polls as [|[time now] polls IH]; intros n Hclock Hn Hlen.
  { cbn in Hlen. lia. }
  replace (42 - n)%nat with (S (41 - n)) by lia. cbn [take SyncTime].
  destruct (time <? 1000000000); [|by eexists].
  destruct (Z.gtb_spec (sub32 now start) 20000) as [Hgt|Hle]; [by eexists|].
  specialize (Hclock 0%nat (time, now) eq_refl) as H0. cbn in H0.
  assert (n <= 40)%nat by lia.
  replace (41 - n)%nat with (42 - S n)%nat by lia.
  apply IH; [|lia|cbn in Hlen; lia].
  intros k p Hp. specialize (Hclock (S k) p Hp). lia.
Qed.

(** X11. [SyncTime] gives up in time and answers true only for a set clock.
    Under the same condition on the loop's clock readings it has returned by
    its 42nd poll; and when it returns true, some poll read a time of at
    least 1000000000. *)
Theorem SyncTime_returns_within_42_polls start polls :
  (forall k p, polls !! k = Some p -> 500 * Z.of_nat k <= sub32 (snd p) start) ->
  (42 <= length polls)%nat ->
  exists r,
    SyncTime start (take 42 polls) = Some r /\
    SyncTime start polls = Some r /\
    (r = true -> exists p, p ∈ polls /\ 1000000000 <= fst p).
Proof.
  intros Hclock Hlen.
  destruct (SyncTime_bounded_from start polls 0) as (r & Hr); [|lia|lia|].
  { intros k p Hp. specialize (Hclock k p Hp). lia. }
  assert (Hall : SyncTime start polls = Some r).
  { rewrite <- (take_drop 42 polls). by apply SyncTime_more_polls. }
  exists r. split; [exact Hr|]. split; [exact Hall|].
  intros ->. clear Hr Hclock Hlen. revert Hall.
  induction polls as [|[time now] polls IH]; [discriminate|].
  cbn. destruct (Z.ltb_spec time 1000000000) as [Hlt|Hge].
  - destruct (_ >? _); [discriminate|].
    intros H. destruct (IH H) as (p & Hp & Hset).
    exists p. split; [by apply elem_of_cons; right | done].
  - intros _. exists (time, now). split; [by apply elem_of_cons; left | done].
Qed.

Lemma SyncTime_returns_within_42_polls_witness :
  exists r,
    SyncTime 100 (map (fun k => (0, 100 + 500 * Z.of_nat k)) (seq 0 42)) = Some r.
Proof.
  destruct (SyncTime_returns_within_42_polls 100
              (map (fun k => (0, 100 + 500 * Z.of_nat k)) (seq 0 42))) as (r & _ & Hr & _).
  - intros k p Hp. rewrite list_lookup_fmap in Hp.
    destruct (seq 0 42 !! k) as [i|] eqn:Hi; [|discriminate Hp].
    apply lookup_seq in Hi as [-> Hlt]. cbn in Hp. injection Hp as <-. cbn [snd].
    unfold sub32, two32. replace (100 + 500 * Z.of_nat k - 100) with (500 * Z.of_nat k) by lia.
    rewrite Z.mod_small; lia.
  - vm_compute. lia.
  - exists r. exact Hr.
Defined.

End StartUp.

(** ** [setup()] and [loop()] *)

Section SetupAndLoop.
Import OTADiagnostics.

(** X12. How [setup()] ends.  Provided [boots++] does not overflow: if the
    incremented boot count exceeds MAX_CRASH_ATTEMPTS the device restarts
    with REASON_CRASH_LOOP whatever the network does; otherwise a failed
    WiFi wait restarts it with REASON_WIFI_TIMEOUT whatever the time sync
    would do; otherwise a failed time sync restarts it with
    REASON_NTP_FAILURE; otherwise [setup()] returns with the count
    incremented.  Every restart leaves "boot_count" = 0, and no path touches
    the pending OTA id. *)
Theorem setup_outcome now wifi_ok ntp_ok d :
  -2147483648 <= boot_count d < 2147483647 ->
  let out := setup now wifi_ok ntp_ok (power_on d) in
  fail_ota_id (final out) = fail_ota_id d /\
  if boot_count d + 1 >? MAX_CRASH_ATTEMPTS then
    rebooted out = true /\ boot_count (final out) = 0 /\
    last_fail (final out) = reason_code REASON_CRASH_LOOP
  else if negb wifi_ok then
    rebooted out = true /\ boot_count (final out) = 0 /\
    last_fail (final out) = reason_code REASON_WIFI_TIMEOUT
  else if negb ntp_ok then
    rebooted out = true /\ boot_count (final out) = 0 /\
    last_fail (final out) = reason_code REASON_NTP_FAILURE
  else
    rebooted out = false /\ boot_count (final out) = boot_count d + 1 /\
    last_fail (final out) = last_fail d.
Proof.
  intros Hr. cbn zeta. unfold boot_count, last_fail, fail_ota_id in *.
  pose proof (int_wrap_small (Preferences.getInt (prefs d) "boot_count" 0 + 1)
                ltac:(lia)) as Hw.
  destruct (Z.gtb_spec (Preferences.getInt (prefs d) "boot_count" 0 + 1)
              MAX_CRASH_ATTEMPTS) as [Hgt|Hle].
  - destruct (begin_crash_loop now (power_on d)) as (d' & E & Hp & _).
    { cbn. rewrite Hw. lia. }
    unfold setup, bind. rewrite E. cbn [final rebooted]. rewrite Hp. cbn [power_on prefs].
    by autorewrite with ledger.
  - destruct (begin_counts now (power_on d)) as (dB & E & Hp & _).
    { cbn. rewrite Hw. lia. }
    cbn [power_on prefs] in Hp. rewrite Hw in Hp.
    rewrite (setup_after_begin _ _ _ _ _ E).
    destruct wifi_ok; cbn [negb].
    + destruct ntp_ok; cbn [negb].
      * cbn [final rebooted]. rewrite Hp. by autorewrite with ledger.
      * destruct (triggerRollback_reboots REASON_NTP_FAILURE dB) as (d' & -> & Hp' & _).
        cbn [final rebooted]. rewrite Hp', Hp. by autorewrite with ledger.
    + destruct (triggerRollback_reboots REASON_WIFI_TIMEOUT dB) as (d' & -> & Hp' & _).
      cbn [final rebooted]. rewrite Hp', Hp. by autorewrite with ledger.
Qed.

Lemma setup_outcome_witness :
  rebooted (setup 100 false false (power_on third_boot_device)) = true /\
  last_fail (final (setup 100 false false (power_on third_boot_device))) =
    reason_code REASON_WIFI_TIMEOUT.
Proof.
  destruct (setup_outcome 100 false false third_boot_device) as [_ H].
  - vm_compute. split; [discriminate | reflexivity].
  - change (boot_count third_boot_device + 1 >? MAX_CRASH_ATTEMPTS) with false in H.
    cbn [negb] in H. destruct H as (Hr & _ & Hf). split; [exact Hr | exact Hf].
Defined.

(** One boot whose WiFi wait fails, from a count of 0. *)
Lemma setup_without_wifi now ntp_ok d :
  boot_count d = 0 ->
  boot_count (final (setup now false ntp_ok (power_on d))) = 0 /\
  last_fail (final (setup now false ntp_ok (power_on d))) =
    reason_code REASON_WIFI_TIMEOUT.
Proof.
  intros H0.
  destruct (begin_below_threshold now (power_on d) H0) as (dB & E & _).
  rewrite (setup_after_begin _ _ _ _ _ E). cbn [negb].
  destruct (triggerRollback_reboots REASON_WIFI_TIMEOUT dB) as (d' & -> & Hp & _).
  cbn [final]. unfold boot_count, last_fail. rewrite Hp. by autorewrite with ledger.
Qed.

(** X13. A device without WiFi never trips the crash-loop detector.
    Starting from a count of 0, however many boots in a row fail the WiFi
    wait in [setup()], each of them ends with "boot_count" back at 0 and
    REASON_WIFI_TIMEOUT stored, so the next [begin] always counts 1. *)
Theorem no_wifi_never_counts_as_crash_loop l d :
  boot_count d = 0 ->
  Forall (fun b => snd (fst b) = false) l ->
  boot_count (setups l d) = 0 /\
  (l <> [] -> last_fail (setups l d) = reason_code REASON_WIFI_TIMEOUT).
Proof.
  revert d. induction l as [|[[now wifi_ok] ntp_ok] l IH]; intros d H0 Hall.
  { split; [done|congruence]. }
  apply Forall_cons in Hall as [Hw Hall]. cbn in Hw. subst wifi_ok.
  cbn [setups].
  destruct (setup_without_wifi now ntp_ok d H0) as [Hb Hf].
  destruct (IH _ Hb Hall) as [Hb' Hf'].
  split; [exact Hb'|]. intros _.
  destruct l as [|b l']; [exact Hf | apply Hf'; discriminate].
Qed.

Lemma no_wifi_never_counts_as_crash_loop_witness :
  boot_count (setups [(100, false, true); (90, false, true); (95, false, false);
                      (80, false, true); (85, false, true)] fresh_device) = 0.
Proof.
  apply (no_wifi_never_counts_as_crash_loop
           [(100, false, true); (90, false, true); (95, false, false);
            (80, false, true); (85, false, true)] fresh_device).
  - vm_compute. reflexivity.
  - repeat constructor.
Defined.

(** While the MQTT client is connected a turn of [loop()] is its [check]. *)
Lemma loop_connected env now_check now_connect d :
  client_connected env = true ->
  loop env now_check now_connect d =
    check now_check (WiFi_connected env) true d.
Proof.
  intros Hc. unfold loop, connectPSK, bind. rewrite Hc.
  by destruct (check now_check (WiFi_connected env) true d) as [[] d'|d'].
Qed.

Lemma loops_connected turns : forall d,
  Forall (fun t => client_connected (fst (fst t)) = true) turns ->
  loops turns d = checks (map loop_obs turns) d.
Proof.
  induction turns as [|[[env n1] n2] turns IH]; intros d Hall; [done|].
  apply Forall_cons in Hall as [Hc Hall]. cbn in Hc.
  cbn [loops map]. rewrite checks_cons. unfold bind at 1.
  rewrite loop_connected by done. unfold loop_obs at 1 2 3. cbn [fst snd o_now o_wifi o_mqtt].
  rewrite Hc.
  destruct (check n1 (WiFi_connected env) true d) as [[] d'|d']; [by apply IH | done].
Qed.

(** X14. A stable connection validates without reporting.  As long as the
    MQTT client stays connected, [loop()] never enters the report path.  If
    during such turns both links stay up over a stability window, the image
    is validated and "last_fail" and "fail_ota_id" are cleared with no
    publish at all: a failure reason that was still stored and unreported at
    that point is erased without ever reaching the broker. *)
Theorem stable_link_validates_without_report turns d :
  _validated d = false ->
  _stabilityStartTime d = 0 ->
  Forall (fun t => client_connected (fst (fst t)) = true) turns ->
  monotonic_run (_bootTime d) (map loop_obs turns) ->
  code_stable_window (_bootTime d) (map loop_obs turns) ->
  exists d',
    loops turns d = Done tt d' /\
    _validated d' = true /\
    last_fail d' = reason_code REASON_NONE /\
    fail_ota_id d' = EmptyString /\
    log d' = (log d ++ [PutInt "boot_count" 0; PutInt "last_fail" 0;
                        PutString "fail_ota_id" EmptyString])%list.
Proof.
  intros Hv Hs Hconn (_ & _ & Hsort)
    (oi & oj & (pre & mid & post & Hl & Hi & Hmid & Hj) & Hne & Hlen & Hlim).
  rewrite loops_connected by done.
  assert (Hfin : _validated (final (checks (map loop_obs turns) d)) = true).
  { rewrite Hl in *. apply (window_validates (_bootTime d)); auto. }
  destruct (checks_run_cases (map loop_obs turns) d Hv)
    as [(_ & Hv' & _) | [(E & _ & Hp & Hlog) | (_ & Hv' & _)]]; try congruence.
  exists (final (checks (map loop_obs turns) d)).
  split; [exact E|]. split; [exact Hfin|].
  unfold last_fail, fail_ota_id. rewrite Hp, Hlog. by autorewrite with ledger.
Qed.

Lemma stable_link_validates_without_report_witness :
  last_fail (with_bootTime 1000 rolled_back_device) = reason_code REASON_WIFI_TIMEOUT /\
  exists d',
    loops sample_turns (with_bootTime 1000 rolled_back_device) = Done tt d' /\
    last_fail d' = reason_code REASON_NONE /\
    log d' = [PutInt "boot_count" 0; PutInt "last_fail" 0;
              PutString "fail_ota_id" EmptyString].
Proof.
  split; [vm_compute; reflexivity|].
  destruct (stable_link_validates_without_report sample_turns
              (with_bootTime 1000 rolled_back_device))
    as (d' & E & _ & Hf & _ & Hl).
  - reflexivity.
  - reflexivity.
  - repeat constructor.
  - repeat split; try done; repeat constructor; vm_compute; congruence.
  - exists (mkObs 5000 true true), (mkObs 65001 true true). split_and!.
    + exists [], [mkObs 40000 true true], []. split_and!; try done.
      repeat constructor.
    + cbn. discriminate.
    + vm_compute. reflexivity.
    + vm_compute. congruence.
  - exists d'. split; [exact E|]. split; [exact Hf | exact Hl].
Defined.

End SetupAndLoop.

(** ** Command dispatch *)

Section Dispatch.

Lemma handleLedControl_frame command pins pin :
  pin <> Commands.LED_PIN -> Commands.handleLedControl command pins !! pin = pins !! pin.
Proof.
  intros Hne. unfold Commands.handleLedControl, Commands.digitalWrite.
  destruct (_ >? _); [by rewrite lookup_insert_ne|].
  destruct (_ >? _); [by rewrite lookup_insert_ne|done].
Qed.

Lemma handlePumpControl_frame command pins pin :
  pin <> Commands.PUMP_PIN -> Commands.handlePumpControl command pins !! pin = pins !! pin.
Proof.
  intros Hne. unfold Commands.handlePumpControl, Commands.digitalWrite.
  destruct (_ >? _); by rewrite lookup_insert_ne.
Qed.

(** X15. A command drives at most one actuator.  [callback] of the
    subscribe sketch never changes a pin other than LED_PIN and PUMP_PIN,
    never changes both, and a message in which [indexOf] finds "led" (after
    its first character and before any NUL byte) is an LED command even if
    it also mentions "pump": the pump pin keeps its level. *)
Theorem command_drives_one_actuator message (pins : gmap Z bool) :
  (forall pin, pin <> Commands.LED_PIN -> pin <> Commands.PUMP_PIN ->
               Commands.callback message pins !! pin = pins !! pin) /\
  (Commands.callback message pins !! Commands.LED_PIN = pins !! Commands.LED_PIN \/
   Commands.callback message pins !! Commands.PUMP_PIN = pins !! Commands.PUMP_PIN) /\
  (indexOf message "led" > 0 ->
   Commands.callback message pins !! Commands.PUMP_PIN = pins !! Commands.PUMP_PIN) /\
  (indexOf message "led" <= 0 -> indexOf message "pump" <= 0 ->
   Commands.callback message pins = pins).
Proof.
  unfold Commands.callback.
  destruct (Z.gtb_spec (indexOf message "led") 0) as [Hled|Hled];
    [|destruct (Z.gtb_spec (indexOf message "pump") 0) as [Hpump|Hpump]].
  - split_and!.
    + intros pin H1 H2. by apply handleLedControl_frame.
    + right. by apply handleLedControl_frame.
    + intros _. by apply handleLedControl_frame.
    + lia.
  - split_and!.
    + intros pin H1 H2. by apply handlePumpControl_frame.
    + left. by apply handlePumpControl_frame.
    + lia.
    + lia.
  - split_and!; auto; lia.
Qed.

(** X16. What the actuators are set to.  Keywords count where [indexOf]
    finds them: after the first character and before any NUL byte.  For an
    LED command, "ON" switches the LED on even if "OFF" occurs too, "OFF"
    alone switches it off, and a command with neither leaves the LED as it
    is.  For a pump command the pump pin is always written: HIGH exactly when
    "ON" is found, LOW for every other text, so an unreadable pump command
    stops the pump. *)
Theorem actuator_levels message (pins : gmap Z bool) :
  (indexOf message "led" > 0 ->
   Commands.callback message pins !! Commands.LED_PIN =
     if indexOf message "ON" >? 0 then Some true
     else if indexOf message "OFF" >? 0 then Some false
     else pins !! Commands.LED_PIN) /\
  (indexOf message "led" <= 0 -> indexOf message "pump" > 0 ->
   Commands.callback message pins !! Commands.PUMP_PIN = Some (indexOf message "ON" >? 0)).
Proof.
  unfold Commands.callback, Commands.handleLedControl, Commands.handlePumpControl, Commands.digitalWrite. split.
  - intros Hled. destruct (Z.gtb_spec (indexOf message "led") 0); [|lia].
    destruct (_ >? _); [by rewrite lookup_insert_eq|].
    destruct (_ >? _); [by rewrite lookup_insert_eq|done].
  - intros Hled Hpump.
    destruct (Z.gtb_spec (indexOf message "led") 0); [lia|].
    destruct (Z.gtb_spec (indexOf message "pump") 0); [|lia].
    destruct (_ >? _); by rewrite lookup_insert_eq.
Qed.

Lemma actuator_levels_witness :
  Commands.callback ("{pump: OFF}") (<[Commands.PUMP_PIN := true]> ∅) !! Commands.PUMP_PIN = Some false.
Proof.
  apply (actuator_levels "{pump: OFF}" (<[Commands.PUMP_PIN := true]> ∅)).
  - vm_compute. discriminate.
  - vm_compute. reflexivity.
Defined.

(** X17. The keyword tests use [indexOf(...) > 0], so a keyword at the very
    start of a message does not count.  A message that begins with "led"
    never reaches the LED handler, and an update message that begins with
    "otaVersion" is dropped by the callback of the OTA sketch, whatever
    follows. *)
Theorem keyword_at_start_is_ignored rest (pins : gmap Z bool) env d :
  Commands.callback ("led" +:+ rest) pins !! Commands.LED_PIN = pins !! Commands.LED_PIN /\
  callback env ("otaVersion" +:+ rest) d = Done tt d.
Proof.
  assert (Hled : indexOf ("led" +:+ rest) "led" = 0).
  { unfold indexOf, String.app. cbn. by destruct (c_str rest). }
  assert (Hota : indexOf ("otaVersion" +:+ rest) "otaVersion" = 0).
  { unfold indexOf, String.app. cbn. by destruct (c_str rest). }
  split.
  - unfold Commands.callback. rewrite Hled. cbn [Z.gtb Z.compare].
    destruct (_ >? _); [|done].
    by apply handlePumpControl_frame.
  - unfold callback. by rewrite Hota.
Qed.

End Dispatch.

(** ** Reading the ledger back *)

Section Accessors.
Import OTADiagnostics.

(** X18. The accessors read back what the mutators wrote.  After
    [setPendingOTA(id)], [getFailedOTAId] returns [id] and the stored reason
    and boot count are as before; after [clearFailure], the two getters
    return REASON_NONE and the empty string and the boot count is as before;
    after [triggerRollback(reason)] the restarted device reads [reason] back
    and still has the pending id. *)
Theorem accessors_read_back otaId reason d :
  (exists d1,
      (setPendingOTA otaId ;; getFailedOTAId) d = Done otaId d1 /\
      last_fail d1 = last_fail d /\ boot_count d1 = boot_count d) /\
  (exists d2,
      (clearFailure ;; getLastFailureReason) d = Done (reason_code REASON_NONE) d2 /\
      (clearFailure ;; getFailedOTAId) d = Done EmptyString d2 /\
      boot_count d2 = boot_count d) /\
  (exists d3,
      triggerRollback reason d = Reboot d3 /\
      getLastFailureReason (power_on d3) = Done (reason_code reason) (power_on d3) /\
      getFailedOTAId (power_on d3) = Done (fail_ota_id d) (power_on d3)).
Proof.
  split_and!.
  - unfold setPendingOTA, getFailedOTAId. run. rewrite getString_putString_eq.
    eexists. split; [reflexivity|]. unfold last_fail, boot_count. cbn.
    by autorewrite with ledger.
  - unfold clearFailure, getLastFailureReason, getFailedOTAId. run.
    rewrite getString_putString_eq.
    rewrite getInt_putString_ne, getInt_putInt_eq by discriminate.
    eexists. split; [reflexivity|]. split; [reflexivity|]. unfold boot_count. cbn.
    by autorewrite with ledger.
  - destruct (triggerRollback_reboots reason d) as (d3 & E & Hp & _).
    exists d3. split; [exact E|].
    unfold getLastFailureReason, getFailedOTAId, prefs_getInt, prefs_getString, gets.
    cbn [power_on prefs]. rewrite Hp. unfold fail_ota_id.
    by autorewrite with ledger.
Qed.

End Accessors.
